(** * T-Bank payment client ([handlers/tbank.py]): a shallow embedding

    The file follows the Python module:

    - SHA-256, the digest behind [hashlib.sha256(...).hexdigest()];
    - the Python values that flow through the client (JSON-like payloads,
      database rows), with [str], truthiness and insertion-ordered
      dictionaries;
    - the effects: the collaborators (settings store, HTTP transport,
      notifier, clock, uuid), the object store that holds the mutable
      payload dictionaries, exceptions, and the monad in which the
      coroutines run;
    - [class TBankManager]: [init_tbank], [_post], [create_payment] and
      [check_payment], transcribed statement by statement;
    - the properties of the client, first for every environment, then
      evaluated on sample values. *)

From Stdlib Require Import ZArith Lia Bool List String Ascii.
From Stdlib Require Import DecimalString SpecFloat OrderedTypeEx.
From stdpp Require Import list sorting.
Import ListNotations.

Set Warnings "-register-all".

Local Open Scope string_scope.
Local Open Scope list_scope.
Local Open Scope Z_scope.

(** String concatenation, kept apart from list append. *)
Local Infix "+++" := String.append (at level 60, right associativity).

(* ===================================================================== *)
(** * SHA-256 (FIPS 180-4), on 32-bit words held in [Z] *)
(* ===================================================================== *)

Module Sha256.

Definition mask32 : Z := 0xffffffff.
Definition w32 (x : Z) : Z := Z.land x mask32.
Definition add32 (x y : Z) : Z := w32 (x + y).
Definition not32 (x : Z) : Z := Z.lxor (w32 x) mask32.
Definition rotr (n x : Z) : Z :=
  Z.lor (Z.shiftr x n) (w32 (Z.shiftl x (32 - n))).

Definition Ch (x y z : Z) : Z := Z.lxor (Z.land x y) (Z.land (not32 x) z).
Definition Maj (x y z : Z) : Z :=
  Z.lxor (Z.lxor (Z.land x y) (Z.land x z)) (Z.land y z).
Definition Sigma0 (x : Z) : Z := Z.lxor (Z.lxor (rotr 2 x) (rotr 13 x)) (rotr 22 x).
Definition Sigma1 (x : Z) : Z := Z.lxor (Z.lxor (rotr 6 x) (rotr 11 x)) (rotr 25 x).
Definition sigma0 (x : Z) : Z := Z.lxor (Z.lxor (rotr 7 x) (rotr 18 x)) (Z.shiftr x 3).
Definition sigma1 (x : Z) : Z := Z.lxor (Z.lxor (rotr 17 x) (rotr 19 x)) (Z.shiftr x 10).

(** The round constants are the first 32 bits of the fractional parts of
    the cube roots of the first 64 primes, the initial hash value those of
    the square roots of the first 8. *)
Definition is_prime (p : Z) : bool :=
  forallb (fun d => negb (p mod Z.of_nat d =? 0)) (seq 2 (Z.to_nat p - 2)).

Definition primes : list Z :=
  Eval vm_compute in List.filter is_prime (map Z.of_nat (seq 2 310)).

(** The integer [k]-th root of [n], found bit by bit from the top. *)
Fixpoint root_bits (k : Z) (bits : nat) (n r : Z) : Z :=
  match bits with
  | O => r
  | S b =>
      let c := r + 2 ^ Z.of_nat b in
      root_bits k b n (if c ^ k <=? n then c else r)
  end.

Definition frac_root (k p : Z) : Z := w32 (root_bits k 40 (p * 2 ^ (32 * k)) 0).

Definition K : list Z := Eval vm_compute in map (frac_root 3) primes.

Definition H0 : list Z := Eval vm_compute in map (frac_root 2) (firstn 8 primes).

(** Message bytes are the character codes of the (already UTF-8 encoded)
    string. *)
Definition bytes_of_string (s : string) : list Z :=
  map (fun c => Z.of_N (N_of_ascii c)) (list_ascii_of_string s).

(** Big-endian bytes of [x], [n] of them. *)
Fixpoint be_bytes (n : nat) (x : Z) : list Z :=
  match n with
  | O => []
  | S n' => Z.land (Z.shiftr x (8 * Z.of_nat n')) 0xff :: be_bytes n' x
  end.

(** Padding: a 1 bit, zeros up to 56 mod 64, then the bit length on 64 bits. *)
Definition pad (msg : list Z) : list Z :=
  let len := Z.of_nat (length msg) in
  let zeros := Z.to_nat ((55 - len) mod 64) in
  msg ++ [0x80] ++ repeat 0 zeros ++ be_bytes 8 (8 * len).

Fixpoint words_of_bytes (fuel : nat) (bs : list Z) : list Z :=
  match fuel, bs with
  | S fuel', b0 :: b1 :: b2 :: b3 :: rest =>
      (Z.shiftl b0 24 + Z.shiftl b1 16 + Z.shiftl b2 8 + b3)
        :: words_of_bytes fuel' rest
  | _, _ => []
  end.

Fixpoint chunks16 (fuel : nat) (ws : list Z) : list (list Z) :=
  match fuel, ws with
  | S fuel', _ :: _ => firstn 16 ws :: chunks16 fuel' (skipn 16 ws)
  | _, _ => []
  end.

(** The message schedule is kept most-recent-first while it is extended:
    [rev_w] holds W[t-1], W[t-2], ... *)
Fixpoint extend_schedule (n : nat) (rev_w : list Z) : list Z :=
  match n with
  | O => rev_w
  | S n' =>
      let w2 := nth 1 rev_w 0 in
      let w7 := nth 6 rev_w 0 in
      let w15 := nth 14 rev_w 0 in
      let w16 := nth 15 rev_w 0 in
      extend_schedule n'
        (add32 (add32 (sigma1 w2) w7) (add32 (sigma0 w15) w16) :: rev_w)
  end.

Definition schedule (block : list Z) : list Z :=
  rev (extend_schedule 48 (rev block)).

Record regs := Regs { ra : Z; rb : Z; rc : Z; rd : Z; re : Z; rf : Z; rg : Z; rh : Z }.

Definition round (r : regs) (kw : Z * Z) : regs :=
  let '(k, w) := kw in
  let t1 := add32 (add32 (add32 (rh r) (Sigma1 (re r))) (Ch (re r) (rf r) (rg r)))
                  (add32 k w) in
  let t2 := add32 (Sigma0 (ra r)) (Maj (ra r) (rb r) (rc r)) in
  Regs (add32 t1 t2) (ra r) (rb r) (rc r) (add32 (rd r) t1) (re r) (rf r) (rg r).

Definition regs_of_list (h : list Z) : regs :=
  Regs (nth 0 h 0) (nth 1 h 0) (nth 2 h 0) (nth 3 h 0)
       (nth 4 h 0) (nth 5 h 0) (nth 6 h 0) (nth 7 h 0).

Definition list_of_regs (r : regs) : list Z :=
  [ra r; rb r; rc r; rd r; re r; rf r; rg r; rh r].

Definition compress (h : list Z) (block : list Z) : list Z :=
  let r := fold_left round (combine K (schedule block)) (regs_of_list h) in
  map (fun p => add32 (fst p) (snd p)) (combine h (list_of_regs r)).

Definition digest_words (s : string) : list Z :=
  let bs := pad (bytes_of_string s) in
  let ws := words_of_bytes (length bs) bs in
  fold_left compress (chunks16 (length ws) ws) H0.

Definition hex_digit (d : Z) : ascii :=
  ascii_of_N (Z.to_N (if d <? 10 then 48 + d else 87 + d)).

(** The [n] low hexadecimal digits of [x], most significant first. *)
Fixpoint hex_digits (n : nat) (x : Z) : list ascii :=
  match n with
  | O => []
  | S n' => hex_digit (Z.land (Z.shiftr x (4 * Z.of_nat n')) 0xf) :: hex_digits n' x
  end.

(** [hashlib.sha256(s.encode()).hexdigest()] *)
Definition hexdigest (s : string) : string :=
  string_of_list_ascii (flat_map (hex_digits 8) (digest_words s)).

End Sha256.


(* ===================================================================== *)
(** * Python values *)
(* ===================================================================== *)

(** The values that reach the client: JSON documents (request payloads and
    processor responses), rows of the settings database and the optional
    arguments of the public coroutines.  A [str] is held as its UTF-8
    encoding, so that [s.encode()] is the identity on the representation
    and byte-wise lexicographic order is code-point order. *)
Inductive pyval : Type :=
| VNone
| VBool (b : bool)
| VInt (z : Z)
| VFloat (f : spec_float)
| VStr (s : string)
| VList (l : list pyval)
| VDict (d : list (string * pyval)).

(** A [dict] with [str] keys, in insertion order.  Python keeps the keys
    distinct; [dict_wf] states it. *)
Definition item : Type := string * pyval.
Definition dict : Type := list item.
Definition row : Type := list pyval.

Definition keys (d : dict) : list string := map fst d.
Definition dict_wf (d : dict) : Prop := NoDup (keys d).

(** [d[k]] when present. *)
Fixpoint dict_get (d : dict) (k : string) : option pyval :=
  match d with
  | [] => None
  | (k', v) :: d' => if String.eqb k' k then Some v else dict_get d' k
  end.

(** [d[k] = v]: an existing key keeps its position, a new key goes last. *)
Fixpoint dict_set (d : dict) (k : string) (v : pyval) : dict :=
  match d with
  | [] => [(k, v)]
  | (k', v') :: d' =>
      if String.eqb k' k then (k', v) :: d' else (k', v') :: dict_set d' k v
  end.

(** IEEE 754 binary64, as CPython's [float]. *)
Definition prec : Z := 53.
Definition emax : Z := 1024.
Definition float_mul : spec_float -> spec_float -> spec_float := SFmul prec emax.
(** [float(n)] for an [int] (correctly rounded). *)
Definition float_of_int (n : Z) : spec_float := binary_normalize prec emax n 0 false.
Definition float_is_zero (f : spec_float) : bool :=
  match f with S754_zero _ => true | _ => false end.

(** [bool(v)] *)
Definition truthy (v : pyval) : bool :=
  match v with
  | VNone => false
  | VBool b => b
  | VInt z => negb (z =? 0)
  | VFloat f => negb (float_is_zero f)
  | VStr s => negb (String.eqb s "")
  | VList l => match l with [] => false | _ => true end
  | VDict d => match d with [] => false | _ => true end
  end.

(** [a or b] *)
Definition py_or (a b : pyval) : pyval := if truthy a then a else b.

(** [v == "s"] for a string literal. *)
Definition py_eq_str (v : pyval) (s : string) : bool :=
  match v with VStr s' => String.eqb s' s | _ => false end.

(** [v != 0]: numbers compare by value across [int], [bool] and [float];
    every other value differs from [0]. *)
Definition py_ne_zero (v : pyval) : bool :=
  match v with
  | VInt z => negb (z =? 0)
  | VBool b => b
  | VFloat f => negb (float_is_zero f)
  | _ => true
  end.

(** [type(v).__name__] *)
Definition type_name (v : pyval) : string :=
  match v with
  | VNone => "NoneType" | VBool _ => "bool" | VInt _ => "int"
  | VFloat _ => "float" | VStr _ => "str" | VList _ => "list"
  | VDict _ => "dict"
  end.

(** [str(n)] for an [int]. *)
Definition str_of_int (z : Z) : string := NilZero.string_of_int (Z.to_int z).

(** ** [sorted(payload.items())]

    The items are [(key, value)] tuples.  Tuples compare by their first
    differing component, and the keys of one dictionary are pairwise
    distinct, so the order of two items is the order of their keys and the
    values are never compared.  [sorted] is stable: an item is placed
    before the first item of the sorted tail that is not smaller. *)
Definition item_ltb (a b : item) : bool := String.ltb (fst a) (fst b).

Fixpoint insert_item (x : item) (l : list item) : list item :=
  match l with
  | [] => [x]
  | y :: l' => if item_ltb y x then y :: insert_item x l' else x :: y :: l'
  end.

Definition sorted (l : list item) : list item := fold_right insert_item [] l.

(** [int(x)] for a [float]: truncation toward zero; infinities and NaN
    have no integer value. *)
Definition float_trunc (f : spec_float) : option Z :=
  match f with
  | S754_zero _ => Some 0
  | S754_finite s m e => Some (cond_Zopp s (Z.shiftl (Z.pos m) e))
  | S754_infinity _ => None
  | S754_nan => None
  end.

(* ===================================================================== *)
(** * Effects: collaborators, object store, exceptions *)
(* ===================================================================== *)

(** An instance of a subclass of [Exception]: its class name and [str(e)].
    These are the exceptions that [except Exception] catches; what derives
    from [BaseException] only (task cancellation, interpreter exit) belongs
    to the scheduler and is not modelled. *)
Inductive exn : Type := Exn (cls : string) (msg : string).
Definition exn_str (e : exn) : string := let 'Exn _ m := e in m.

(** What awaiting a collaborator yields. *)
Inductive outcome (A : Type) : Type :=
| Returns (a : A)
| Raises (e : exn).
Arguments Returns {A} a.
Arguments Raises {A} e.

(** [bot.send_message(chat_id=, text=, parse_mode=, reply_markup=)] *)
Definition notifier : Type := pyval -> string -> string -> pyval -> outcome unit.

(** The environment of one call of a public coroutine.  Each collaborator
    is awaited at most once in a call, so one outcome per collaborator
    describes it; the transport sees the request it is given. *)
Record world : Type := World {
  (** [await db.get_tbank_settings()]: a row, [None], or an exception *)
  db_get_tbank_settings : outcome (option row);
  (** [str(uuid.uuid4())] *)
  uuid4 : string;
  (** [session.post(url, json=body)] followed by [response.json()] *)
  http_post_json : string -> dict -> outcome pyval;
  (** [SELECT pay_notify FROM bot_settings LIMIT 1] and [fetchone()], with
      the connection and cursor that carry it *)
  db_fetch_pay_notify : outcome (option row);
  (** [datetime.now().strftime('%Y-%m-%d %H:%M:%S')] *)
  now_strftime : string;
  (** [get_admin_keyboard()] *)
  get_admin_keyboard : outcome pyval
}.

Inductive level : Type := INFO | ERROR.

(** What a call does to the outside, in order. *)
Inductive event : Type :=
| EvLog (lv : level) (msg : string)
| EvGetSettings
| EvHttpPost (url : string) (body : dict)
| EvFetchNotify
| EvSendMessage (chat_id : pyval) (text : string) (parse_mode : string)
                (reply_markup : pyval).

(** The attributes of a [TBankManager]. *)
Record manager : Type := Manager {
  is_initialized : bool;
  base_url : string;
  terminal_key : pyval;
  password : pyval
}.

(** [TBankManager.__init__] *)
Definition __init__ : manager :=
  Manager false "https://ecom.tinkoff.ru/api/v2/" VNone VNone.

(** Dictionaries are objects: a variable holds the address of one, and two
    variables may hold the same address. *)
Definition addr : Type := nat.

Record state : Type := State {
  self : manager;
  heap : list dict
}.

Record step (A : Type) : Type := Step {
  result : outcome A;
  final : state;
  emitted : list event
}.
Arguments Step {A} result final emitted.
Arguments result {A} s.
Arguments final {A} s.
Arguments emitted {A} s.

(** A coroutine body: it reads the environment, updates the state, emits
    events, and returns or raises.  State updates and events made before an
    exception stay. *)
Definition M (A : Type) : Type := world -> state -> step A.

Definition ret {A} (a : A) : M A := fun _ s => Step (Returns a) s [].
Definition raise {A} (e : exn) : M A := fun _ s => Step (Raises e) s [].

(** [after evs r]: the step [r], taken after the events [evs]. *)
Definition after {A} (evs : list event) (r : step A) : step A :=
  let 'Step res s evs' := r in Step res s (evs ++ evs').

Definition bind {A B} (m : M A) (k : A -> M B) : M B :=
  fun w s =>
    match m w s with
    | Step (Returns a) s1 evs => after evs (k a w s1)
    | Step (Raises e) s1 evs => Step (Raises e) s1 evs
    end.

(** [try: m  except Exception as e: h e] *)
Definition try_except {A} (m : M A) (h : exn -> M A) : M A :=
  fun w s =>
    match m w s with
    | Step (Returns a) s1 evs => Step (Returns a) s1 evs
    | Step (Raises e) s1 evs => after evs (h e w s1)
    end.

Declare Scope monad_scope.
Delimit Scope monad_scope with monad.
Bind Scope monad_scope with M.
Notation "x <- c1 ;; c2" := (bind c1 (fun x => c2))
  (at level 100, c1 at next level, right associativity) : monad_scope.
Notation "c1 ;; c2" := (bind c1 (fun _ => c2))
  (at level 100, right associativity) : monad_scope.
Local Open Scope monad_scope.

Definition emit (e : event) : M unit := fun _ s => Step (Returns tt) s [e].
Definition log (lv : level) (msg : string) : M unit := emit (EvLog lv msg).

Definition get_self : M manager := fun _ s => Step (Returns (self s)) s [].
Definition set_self (f : manager -> manager) : M unit :=
  fun _ s => Step (Returns tt) (State (f (self s)) (heap s)) [].

Definition set_terminal_key (v : pyval) (m : manager) : manager :=
  Manager (is_initialized m) (base_url m) v (password m).
Definition set_password (v : pyval) (m : manager) : manager :=
  Manager (is_initialized m) (base_url m) (terminal_key m) v.
Definition set_is_initialized (b : bool) (m : manager) : manager :=
  Manager b (base_url m) (terminal_key m) (password m).

(** A dangling address cannot arise in Python; the case only makes the
    store operations total. *)
Definition dangling : exn := Exn "ReferenceError" "no such object".

(** A dictionary display [{...}]: a fresh object. *)
Definition new_dict (d : dict) : M addr :=
  fun _ s => Step (Returns (List.length (heap s))) (State (self s) (heap s ++ [d])) [].

Definition read_dict (a : addr) : M dict :=
  fun _ s =>
    match heap s !! a with
    | Some d => Step (Returns d) s []
    | None => Step (Raises dangling) s []
    end.

(** [a[k] = v] *)
Definition dict_setitem (a : addr) (k : string) (v : pyval) : M unit :=
  d <- read_dict a ;;
  fun _ s => Step (Returns tt) (State (self s) (<[a := dict_set d k v]> (heap s))) [].

(** [a.copy()]: a new object with the same items. *)
Definition dict_copy (a : addr) : M addr :=
  d <- read_dict a ;; new_dict d.

(** [a.items()] *)
Definition dict_items (a : addr) : M (list item) := read_dict a.

(** [v.get(k, default)]; only a [dict] has the method. *)
Definition py_get_default (v : pyval) (k : string) (default : pyval) : M pyval :=
  match v with
  | VDict d => ret (match dict_get d k with Some x => x | None => default end)
  | _ => raise (Exn "AttributeError"
                  ("'" +++ type_name v +++ "' object has no attribute 'get'"))
  end.

(** [v.get(k)] *)
Definition py_get (v : pyval) (k : string) : M pyval := py_get_default v k VNone.

(** [bool(settings)] for what a fetch returned: [None] and the empty row
    are false. *)
Definition row_truthy (r : option row) : bool :=
  match r with
  | Some (_ :: _) => true
  | _ => false
  end.

(** [settings[i]] *)
Definition subscript (r : option row) (i : nat) : M pyval :=
  match r with
  | Some l =>
      match l !! i with
      | Some v => ret v
      | None => raise (Exn "IndexError" "tuple index out of range")
      end
  | None => raise (Exn "TypeError" "'NoneType' object is not subscriptable")
  end.

(** [int(x)] for a [float] *)
Definition py_int (f : spec_float) : M Z :=
  match float_trunc f with
  | Some z => ret z
  | None =>
      raise (match f with
             | S754_nan => Exn "ValueError" "cannot convert float NaN to integer"
             | _ => Exn "OverflowError" "cannot convert float infinity to integer"
             end)
  end.

(** Awaiting the collaborators. *)
Definition await_get_tbank_settings : M (option row) :=
  fun w s => Step (db_get_tbank_settings w) s [EvGetSettings].

Definition await_fetch_pay_notify : M (option row) :=
  fun w s => Step (db_fetch_pay_notify w) s [EvFetchNotify].

Definition uuid_uuid4 : M string := fun w s => Step (Returns (uuid4 w)) s [].

Definition datetime_now : M string := fun w s => Step (Returns (now_strftime w)) s [].

Definition call_get_admin_keyboard : M pyval :=
  fun w s => Step (get_admin_keyboard w) s [].

(** The request body is the dictionary at [data] as it is when the request
    is made. *)
Definition session_post (url : string) (data : addr) : M pyval :=
  body <- read_dict data ;;
  fun w s => Step (http_post_json w url body) s [EvHttpPost url body].

(** [bot.send_message]: attribute lookup on [None] fails. *)
Definition send_message_of (bot : option notifier) : M notifier :=
  match bot with
  | Some n => ret n
  | None => raise (Exn "AttributeError"
                     "'NoneType' object has no attribute 'send_message'")
  end.

Definition call_send_message (send : notifier) (chat_id : pyval) (text : string)
    (parse_mode : string) (reply_markup : pyval) : M unit :=
  fun _ s => Step (send chat_id text parse_mode reply_markup) s
                  [EvSendMessage chat_id text parse_mode reply_markup].

(* ===================================================================== *)
(** * [str] and [repr] *)
(* ===================================================================== *)

Section Builtins.

(** [repr] of a [str] (quoting and escaping, which depend on the Unicode
    database) and of a [float] (shortest round-trip digits) are Python
    built-ins that are not re-implemented: every result below holds for
    any two functions. *)
Variable repr_str : string -> string.
Variable repr_float : spec_float -> string.

(** [repr(v)] *)
Fixpoint py_repr (v : pyval) : string :=
  match v with
  | VNone => "None"
  | VBool true => "True"
  | VBool false => "False"
  | VInt z => str_of_int z
  | VFloat f => repr_float f
  | VStr s => repr_str s
  | VList l => "[" +++ String.concat ", " (map py_repr l) +++ "]"
  | VDict d =>
      "{" +++ String.concat ", "
                (map (fun kv : item =>
                        let (k, x) := kv in repr_str k +++ ": " +++ py_repr x) d)
          +++ "}"
  end.

(** [str(v)] *)
Definition py_str (v : pyval) : string :=
  match v with
  | VStr s => s
  | _ => py_repr v
  end.

(** [token_str = "".join(str(v) for k, v in sorted_items)] *)
Definition token_str (sorted_items : list item) : string :=
  String.concat "" (map (fun kv : item => let (_, v) := kv in py_str v) sorted_items).

(* ===================================================================== *)
(** * [class TBankManager] *)
(* ===================================================================== *)

(** [async def init_tbank(self) -> bool] *)
Definition init_tbank : M bool :=
  try_except
    (settings <- await_get_tbank_settings ;;
     (* not settings or not settings[2] or not settings[3] *)
     unconfigured <-
       (if negb (row_truthy settings) then ret true
        else s2 <- subscript settings 2 ;;
             if negb (truthy s2) then ret true
             else s3 <- subscript settings 3 ;;
                  ret (negb (truthy s3))) ;;
     if unconfigured then
       log ERROR "TBank settings are not configured" ;;
       ret false
     else
       s2 <- subscript settings 2 ;;
       set_self (set_terminal_key s2) ;;
       s3 <- subscript settings 3 ;;
       set_self (set_password s3) ;;
       set_self (set_is_initialized true) ;;
       me <- get_self ;;
       log INFO ("TBank initialized with terminal_key: " +++ py_str (terminal_key me)) ;;
       ret true)
    (fun e =>
       log ERROR ("Error initializing TBank: " +++ exn_str e) ;;
       ret false).

(** The nested [def _generate_token(payload)]; [payload] is the address of
    the dictionary it is given, and [self.password] is read when it runs. *)
Definition _generate_token (payload : addr) : M string :=
  me <- get_self ;;
  dict_setitem payload "Password" (password me) ;;
  items <- dict_items payload ;;
  let sorted_items := sorted items in
  ret (Sha256.hexdigest (token_str sorted_items)).

(** [async def _post(self, endpoint, data) -> Optional[dict]]; the result
    [None] is [VNone]. *)
Definition _post (endpoint : string) (data : addr) : M pyval :=
  me <- get_self ;;
  (* not self.is_initialized and not await self.init_tbank() *)
  not_ready <-
    (if negb (is_initialized me) then
       ok <- init_tbank ;; ret (negb ok)
     else ret false) ;;
  if not_ready then ret VNone
  else
    me <- get_self ;;
    let url := base_url me +++ endpoint in
    dict_setitem data "TerminalKey" (terminal_key me) ;;
    payload <- dict_copy data ;;
    token <- _generate_token payload ;;
    dict_setitem data "Token" (VStr token) ;;
    result <- session_post url data ;;
    success <- py_get result "Success" ;;
    (if negb (truthy success) then
       log ERROR ("TBank API error at " +++ endpoint +++ ": " +++ py_str result)
     else ret tt) ;;
    ret result.

(** [async def create_payment(self, amount, description, user_email=None,
    user_id=None, tariff_name=None, username=None)]: first the suite of its
    [try], then the coroutine with its [except Exception] clause. *)
Definition create_payment_try (amount : spec_float) (description : string)
    (user_email user_id tariff_name username : pyval) : M (pyval * pyval) :=
  order_id <- uuid_uuid4 ;;
  amount_minor <- py_int (float_mul amount (float_of_int 100)) ;;
  data <- new_dict
    [ ("OrderId", VStr order_id);
      ("Amount", VInt amount_minor);
      ("Description", VStr description);
      ("CustomerKey", VStr (py_str user_id));
      ("DATA", VDict
         [ ("telegram_id", user_id);
           ("username", py_or username (VStr "unknown"));
           ("tariff_name", py_or tariff_name (VStr "none")) ]);
      ("SuccessURL", VStr "https://t.me/BURYAT_VPN_BOT");
      ("FailURL", VStr "https://t.me/BURYAT_VPN_BOT");
      ("NotificationURL", VStr "https://your-server.com/tbank/callback") ] ;;
  result <- _post "Init" data ;;
  (* result and result.get("Success") *)
  succeeded <-
    (if truthy result then
       success <- py_get result "Success" ;; ret (truthy success)
     else ret false) ;;
  if succeeded then
    payment_id <- py_get result "PaymentId" ;;
    payment_url <- py_get result "PaymentURL" ;;
    ret (payment_id, payment_url)
  else ret (VNone, VNone).

Definition create_payment (amount : spec_float) (description : string)
    (user_email user_id tariff_name username : pyval) : M (pyval * pyval) :=
  try_except
    (create_payment_try amount description user_email user_id tariff_name username)
    (fun e =>
       log ERROR ("Error creating TBank payment: " +++ exn_str e) ;;
       ret (VNone, VNone)).

Definition nl : string := String (ascii_of_nat 10) EmptyString.

(** The notification text of [check_payment]. *)
Definition message_text (order_id tariff : pyval) (now : string) : string :=
  "🎉 Новая подписка! 🏆" +++ nl +++
  "<blockquote>" +++
  "👤 Пользователь: " +++ py_str order_id +++ nl +++
  "💳 Тариф: " +++ py_str tariff +++ nl +++
  "📅 Дата активации: " +++ now +++ nl +++
  "🚀 Подписка успешно оформлена!</blockquote>".

(** [async def check_payment(self, payment_id, bot=None) -> bool]: the suite
    of its [try], then the coroutine with its [except Exception] clause. *)
Definition check_payment_try (payment_id : pyval) (bot : option notifier) : M bool :=
  data <- new_dict [ ("PaymentId", payment_id) ] ;;
  result <- _post "GetState" data ;;
  (* result and result.get("Status") == "CONFIRMED" *)
  confirmed <-
    (if truthy result then
       status <- py_get result "Status" ;; ret (py_eq_str status "CONFIRMED")
     else ret false) ;;
  if confirmed then
    log INFO ("Payment " +++ py_str payment_id +++ " succeeded") ;;
    notify_settings <- await_fetch_pay_notify ;;
    (* notify_settings and notify_settings[0] != 0 *)
    enabled <-
      (if row_truthy notify_settings then
         target <- subscript notify_settings 0 ;; ret (py_ne_zero target)
       else ret false) ;;
    (if enabled then
       order_id <- py_get result "OrderId" ;;
       meta <- py_get_default result "DATA" (VDict []) ;;
       tariff <- py_get_default meta "tariff_name" (VStr "N/A") ;;
       now <- datetime_now ;;
       let text := message_text order_id tariff now in
       try_except
         (send <- send_message_of bot ;;
          chat_id <- subscript notify_settings 0 ;;
          keyboard <- call_get_admin_keyboard ;;
          call_send_message send chat_id text "HTML" keyboard)
         (fun e => log ERROR ("Ошибка при отправке уведомления: " +++ exn_str e))
     else ret tt) ;;
    ret true
  else
    status <- py_get result "Status" ;;
    log INFO ("Payment " +++ py_str payment_id +++ " status: " +++ py_str status) ;;
    ret false.

Definition check_payment (payment_id : pyval) (bot : option notifier) : M bool :=
  try_except
    (check_payment_try payment_id bot)
    (fun e =>
       log ERROR ("Error checking TBank payment: " +++ exn_str e) ;;
       ret false).

(* ===================================================================== *)
(** * Derived forms used in the statements *)
(* ===================================================================== *)

(** The dictionary that [_generate_token] sorts and hashes when [_post] is
    given a dictionary with items [P]: [P] with the terminal key, then the
    password. *)
Definition signed_copy (me : manager) (P : dict) : dict :=
  dict_set (dict_set P "TerminalKey" (terminal_key me)) "Password" (password me).

(** The string whose digest is the token, and the token. *)
Definition signed_string (me : manager) (P : dict) : string :=
  token_str (sorted (signed_copy me P)).

Definition signature (me : manager) (P : dict) : string :=
  Sha256.hexdigest (signed_string me P).

(** The caller's dictionary once [_post] has added its two fields. *)
Definition request_body (me : manager) (P : dict) : dict :=
  dict_set (dict_set P "TerminalKey" (terminal_key me)) "Token" (VStr (signature me P)).

(** [r.get(k)] on the items of a dictionary. *)
Definition field (r : dict) (k : string) : pyval :=
  match dict_get r k with
  | Some v => v
  | None => VNone
  end.

(** The HTTP requests and the notifier calls among the events of a run. *)
Definition http_requests (evs : list event) : list (string * dict) :=
  flat_map (fun e => match e with EvHttpPost u b => [(u, b)] | _ => [] end) evs.

Definition notifier_calls (evs : list event) : list event :=
  List.filter (fun e => match e with EvSendMessage _ _ _ _ => true | _ => false end) evs.

(** Events that are neither HTTP requests nor notifier calls. *)
Definition quiet (evs : list event) : Prop :=
  http_requests evs = [] /\ notifier_calls evs = [].

Definition item_lt (a b : item) : Prop := item_ltb a b = true.

(** The credentials that [init_tbank] accepts from the settings store:
    columns 2 and 3 of the row, both present and true. *)
Definition credentials (o : outcome (option row)) : option (pyval * pyval) :=
  match o with
  | Returns (Some r) =>
      match r !! 2%nat, r !! 3%nat with
      | Some tk, Some pw => if truthy tk && truthy pw then Some (tk, pw) else None
      | _, _ => None
      end
  | _ => None
  end.

(** What [_post] leaves and returns when the client is initialized and
    [data] holds the items [P]: the caller's dictionary carries the terminal
    key and the token, the copy made for signing stays in the store, and
    the outcome is that of the transport, read as a dictionary. *)
Definition posted_state (data : addr) (s : state) (P : dict) : state :=
  State (self s)
        (<[data := request_body (self s) P]> (heap s) ++ [signed_copy (self s) P]).

Definition post_outcome (endpoint : string) (data : addr) (w : world) (s : state)
    (P : dict) : step pyval :=
  let url := base_url (self s) +++ endpoint in
  let body := request_body (self s) P in
  let s' := posted_state data s P in
  match http_post_json w url body with
  | Raises e => Step (Raises e) s' [EvHttpPost url body]
  | Returns (VDict r) =>
      Step (Returns (VDict r)) s'
           (EvHttpPost url body ::
            if truthy (field r "Success") then []
            else [EvLog ERROR ("TBank API error at " +++ endpoint +++ ": "
                               +++ py_str (VDict r))])
  | Returns v =>
      Step (Raises (Exn "AttributeError"
                      ("'" +++ type_name v +++ "' object has no attribute 'get'")))
           s' [EvHttpPost url body]
  end.

(** The statements of [_post] that follow its initialization guard. *)
Definition post_request (endpoint : string) (data : addr) : M pyval :=
  me <- get_self ;;
  let url := base_url me +++ endpoint in
  dict_setitem data "TerminalKey" (terminal_key me) ;;
  payload <- dict_copy data ;;
  token <- _generate_token payload ;;
  dict_setitem data "Token" (VStr token) ;;
  result <- session_post url data ;;
  success <- py_get result "Success" ;;
  (if negb (truthy success) then
     log ERROR ("TBank API error at " +++ endpoint +++ ": " +++ py_str result)
   else ret tt) ;;
  ret result.

(** What [create_payment] makes of the outcome of the [Init] request. *)
Definition payment_of_response (resp : outcome pyval) : pyval * pyval :=
  match resp with
  | Returns (VDict r) =>
      if truthy (field r "Success")
      then (field r "PaymentId", field r "PaymentURL")
      else (VNone, VNone)
  | _ => (VNone, VNone)
  end.

(** What [check_payment] makes of the outcome of the [GetState] request:
    the response counts as confirmed when it is a dictionary whose
    [Status] is the string [CONFIRMED]; the notification target is enabled
    when the row exists and its first column differs from [0]; the text can
    be composed when [DATA] is missing or is a dictionary. *)
Definition confirmed_response (resp : outcome pyval) : option dict :=
  match resp with
  | Returns (VDict r) =>
      if py_eq_str (field r "Status") "CONFIRMED" then Some r else None
  | _ => None
  end.

Definition notify_enabled (ns : option row) : bool :=
  match ns with
  | Some (target :: _) => py_ne_zero target
  | _ => false
  end.

Definition meta_readable (r : dict) : bool :=
  match dict_get r "DATA" with
  | Some (VDict _) => true
  | Some _ => false
  | None => true
  end.

Definition notification_completes (w : world) (r : dict) : bool :=
  match db_fetch_pay_notify w with
  | Returns ns => if notify_enabled ns then meta_readable r else true
  | Raises _ => false
  end.

Definition check_of_response (w : world) (resp : outcome pyval) : bool :=
  match confirmed_response resp with
  | Some r => notification_completes w r
  | None => false
  end.

(** The two cases in which the test of line 117 finds no target: the query
    found no row, or the row's first column is the integer [0].  A row whose
    column is [NULL] is not among them: [None != 0] is true. *)
Definition target_disabled (o : outcome (option row)) : Prop :=
  o = Returns None \/ exists rest, o = Returns (Some (VInt 0 :: rest)).

(** A credential column of a settings row is empty or absent. *)
Definition column_missing (r : row) (i : nat) : Prop :=
  match r !! i with
  | Some v => truthy v = false
  | None => True
  end.

(** The settings store has no row, or the terminal key (column 2) or the
    password (column 3) of its row is empty or absent. *)
Definition settings_unconfigured (o : outcome (option row)) : Prop :=
  o = Returns None \/
  exists r, o = Returns (Some r) /\ (column_missing r 2 \/ column_missing r 3).

(** The state of a client that cached the credentials. *)
Definition initialized_with (tk pw : pyval) (s : state) : state :=
  State (Manager true (base_url (self s)) tk pw) (heap s).


(** [d] without the key [k]. *)
Definition without (k : string) (d : dict) : dict :=
  List.filter (fun kv : item => negb (String.eqb (fst kv) k)) d.

(** The reads of the settings store and of the notification target among
    the events of a run, and the events that are log records. *)
Definition settings_reads (evs : list event) : list event :=
  List.filter (fun e => match e with EvGetSettings => true | _ => false end) evs.

Definition notify_reads (evs : list event) : list event :=
  List.filter (fun e => match e with EvFetchNotify => true | _ => false end) evs.

Definition is_log (e : event) : bool :=
  match e with EvLog _ _ => true | _ => false end.

(** The client when [_post] goes on to the request: an initialized client
    is used as it is, an uninitialized one caches the credentials that the
    settings store holds, if it holds them. *)
Definition client_after (w : world) (me : manager) : manager :=
  if is_initialized me then me
  else match credentials (db_get_tbank_settings w) with
       | Some (tk, pw) => Manager true (base_url me) tk pw
       | None => me
       end.

(** The items of the dictionary display of [create_payment], for the order
    identifier and the amount in minor units that the call obtained. *)
Definition init_payload (order_id : string) (amount_minor : Z) (description : string)
    (user_id tariff_name username : pyval) : dict :=
  [ ("OrderId", VStr order_id);
    ("Amount", VInt amount_minor);
    ("Description", VStr description);
    ("CustomerKey", VStr (py_str user_id));
    ("DATA", VDict
       [ ("telegram_id", user_id);
         ("username", py_or username (VStr "unknown"));
         ("tariff_name", py_or tariff_name (VStr "none")) ]);
    ("SuccessURL", VStr "https://t.me/BURYAT_VPN_BOT");
    ("FailURL", VStr "https://t.me/BURYAT_VPN_BOT");
    ("NotificationURL", VStr "https://your-server.com/tbank/callback") ].

(** [result.get('DATA', {}).get('tariff_name', 'N/A')] when [DATA] is
    missing or is a dictionary. *)
Definition tariff_of (r : dict) : pyval :=
  match dict_get r "DATA" with
  | Some (VDict meta) =>
      match dict_get meta "tariff_name" with
      | Some t => t
      | None => VStr "N/A"
      end
  | _ => VStr "N/A"
  end.

(** The notifier calls of [check_payment] for the outcome of the
    [GetState] request: one call, for a confirmed payment with an enabled
    target and a readable [DATA], when a bot was given and the keyboard was
    built; none otherwise. *)
Definition expected_call (w : world) (bot : option notifier) (r : dict)
    (target : pyval) : list event :=
  match bot, get_admin_keyboard w with
  | Some _, Returns keyboard =>
      [EvSendMessage target
         (message_text (field r "OrderId") (tariff_of r) (now_strftime w))
         "HTML" keyboard]
  | _, _ => []
  end.

Definition notification_of (w : world) (bot : option notifier)
    (resp : outcome pyval) : list event :=
  match confirmed_response resp with
  | Some r =>
      match db_fetch_pay_notify w with
      | Returns (Some (target :: _)) =>
          if py_ne_zero target && meta_readable r
          then expected_call w bot r target
          else []
      | _ => []
      end
  | None => []
  end.

(** The reads of the notification target for the outcome of the request. *)
Definition target_reads (resp : outcome pyval) : list event :=
  match confirmed_response resp with
  | Some _ => [EvFetchNotify]
  | None => []
  end.

(** Two dictionaries with the same keys in the same order whose values
    have the same [str]. *)
Definition same_strings (P1 P2 : dict) : Prop :=
  Forall2 (fun a b : item => fst a = fst b /\ py_str (snd a) = py_str (snd b)) P1 P2.


(** ** Sample values for the closed examples

    The two built-ins are instantiated by stand-ins: the samples hold no
    float, and their strings need no escaping, for which [repr] just adds
    the quotes. *)
Definition sample_repr_str (s : string) : string := "'" +++ s +++ "'".
Definition sample_repr_float (f : spec_float) : string :=
  match f with
  | S754_nan => "nan"
  | S754_infinity false => "inf"
  | S754_infinity true => "-inf"
  | S754_zero false => "0.0"
  | S754_zero true => "-0.0"
  | S754_finite _ _ _ => "finite"
  end.

(** The floats [10.0] and [19.99]. *)
Definition float_10 : spec_float := S754_finite false 5629499534213120 (-49).
Definition float_19_99 : spec_float := S754_finite false 5626684784446013 (-48).

(** A client with cached credentials, and a store holding one payload. *)
Definition ready : manager :=
  Manager true "https://ecom.tinkoff.ru/api/v2/" (VStr "TK") (VStr "PW").
Definition ready_state : state := State ready [].
Definition fresh_state : state := State __init__ [].

Definition payload_a : dict := [("PaymentId", VStr "pid1"); ("OrderId", VStr "o1")].

Definition settings_row : row := [VInt 1; VStr "tbank"; VStr "TK"; VStr "PW"].

(** An environment from the three outcomes that vary in the examples. *)
Definition sample_world (settings : outcome (option row))
    (response : outcome pyval) (pay_notify : outcome (option row)) : world :=
  World settings "0f8fad5b-d9cb-469f-a165-70867728950e"
        (fun _ _ => response) pay_notify "2024-01-01 00:00:00" (Returns VNone).

Definition init_accepted : pyval :=
  VDict [("Success", VBool true); ("PaymentId", VStr "pid1");
         ("PaymentURL", VStr "https://pay/x")].
Definition init_refused : pyval := VDict [("Success", VBool false)].
Definition state_confirmed : pyval :=
  VDict [("Success", VBool true); ("Status", VStr "CONFIRMED")].

Definition world_accepted : world :=
  sample_world (Returns (Some settings_row)) (Returns init_accepted) (Returns None).
Definition world_refused : world :=
  sample_world (Returns (Some settings_row)) (Returns init_refused) (Returns None).
Definition world_confirmed_no_target : world :=
  sample_world (Returns (Some settings_row)) (Returns state_confirmed)
               (Returns (Some [VInt 0])).
Definition world_confirmed_target : world :=
  sample_world (Returns (Some settings_row)) (Returns state_confirmed)
               (Returns (Some [VInt 77])).
Definition world_confirmed_store_down : world :=
  sample_world (Returns (Some settings_row)) (Returns state_confirmed)
               (Raises (Exn "OperationalError" "unable to open database file")).
Definition world_network_down : world :=
  sample_world (Returns (Some settings_row))
               (Raises (Exn "ClientConnectorError" "cannot connect to host"))
               (Returns None).
Definition world_no_settings : world :=
  sample_world (Returns None) (Returns init_accepted) (Returns None).

(** A notifier that always fails. *)
Definition failing_notifier : notifier :=
  fun _ _ _ _ => Raises (Exn "TelegramAPIError" "chat not found").

(** A notifier that delivers, and a settings row whose [pay_notify] is
    [NULL]. *)
Definition accepting_notifier : notifier := fun _ _ _ _ => Returns tt.
Definition world_confirmed_null_target : world :=
  sample_world (Returns (Some settings_row)) (Returns state_confirmed)
               (Returns (Some [VNone])).

(** A client that cached other credentials than the store holds now. *)
Definition stale : manager :=
  Manager true "https://ecom.tinkoff.ru/api/v2/" (VStr "OLD") (VStr "OLDPW").
Definition stale_state : state := State stale [payload_a].

(** The float [2 ** 1023]: finite, and its product with [100.0] is not. *)
Definition float_huge : spec_float := S754_finite false 4503599627370496 971.

(** An accepted [Init] answer without a payment page. *)
Definition init_without_url : pyval :=
  VDict [("Success", VBool true); ("PaymentId", VStr "pid1")].
Definition world_without_url : world :=
  sample_world (Returns (Some settings_row)) (Returns init_without_url) (Returns None).

(** The processor answers with a JSON array. *)
Definition world_array_answer : world :=
  sample_world (Returns (Some settings_row)) (Returns (VList [])) (Returns None).

(** Simplification leaves the digest, the sort and string building alone. *)
Arguments Sha256.hexdigest : simpl never.
Arguments String.append : simpl never.
Arguments sorted : simpl never.
Arguments token_str : simpl never.
Arguments py_repr : simpl never.
Arguments py_str : simpl never.
Arguments float_mul : simpl never.
Arguments float_of_int : simpl never.
Arguments float_trunc : simpl never.

(* ===================================================================== *)
(** * Proof automation *)
(* ===================================================================== *)

(** Reduce only the plumbing of the monad. *)
Ltac step_monad :=
  cbn [bind try_except after ret raise log emit get_self set_self
       result final emitted self heap is_initialized base_url terminal_key password
       set_terminal_key set_password set_is_initialized
       row_truthy lookup list_lookup negb andb app].

Ltac run_monad :=
  unfold bind, try_except, after, ret, raise, log, emit, get_self, set_self,
    await_get_tbank_settings, subscript; step_monad.

(** Unfold the steps of a run whose scrutinees are known. *)
Ltac crunch :=
  unfold bind, try_except, after, ret, raise, log, emit, py_get, py_get_default, field;
  cbn [result final emitted app truthy negb fst snd].

Ltac crunch_check :=
  unfold await_fetch_pay_notify, subscript, datetime_now, send_message_of,
    call_get_admin_keyboard, call_send_message;
  crunch; cbn [row_truthy lookup list_lookup py_eq_str].

(** Count the requests and the notifier calls of a list of events; the
    rewriting base [events] distributes the two counts over [++]. *)
Create Rewrite HintDb events.

Ltac count_events :=
  cbn [result final emitted app];
  autorewrite with events;
  cbn [http_requests notifier_calls flat_map List.filter app].

(** Close a leaf of the case analysis of [check_payment]: [Hq1] and [Hq2]
    say that the events before the request hold no request and no call. *)
Ltac settle Hq1 Hq2 :=
  crunch_check; crunch_check;
  autorewrite with events; rewrite ?Hq1, ?Hq2;
  count_events;
  repeat split; try reflexivity;
  try (intros Hcall;
       first [ congruence
             | eexists _, _;
               (split; [reflexivity|split; [reflexivity|]]);
               cbn [notify_enabled]; assumption ]).

(** Close a leaf of the case analysis of a run whose events are to be
    split at the request. *)
Ltac settle_tail :=
  crunch_check; crunch_check;
  eexists; split;
  [ rewrite <- ?app_assoc; cbn [app]; reflexivity
  | cbn [http_requests settings_reads notify_reads notifier_calls flat_map
         List.filter forallb is_log andb app];
    repeat split; reflexivity ].

(* ===================================================================== *)
(** * Order on keys and uniqueness of the sorted items *)
(* ===================================================================== *)

Lemma ltb_lts (a b : string) : String.ltb a b = true <-> String_as_OT.lt a b.
Proof.
  unfold String.ltb. rewrite <- String_as_OT.cmp_lt. unfold String_as_OT.cmp.
  destruct (String.compare a b); split; intro H; congruence.
Qed.

Lemma ltb_irrefl (a : string) : String.ltb a a = false.
Proof.
  unfold String.ltb.
  pose proof (String.compare_antisym a a) as H.
  destruct (String.compare a a); simpl in H; congruence.
Qed.

Lemma ltb_trans (a b c : string) :
  String.ltb a b = true -> String.ltb b c = true -> String.ltb a c = true.
Proof.
  rewrite !ltb_lts. apply String_as_OT.lt_trans.
Qed.

Lemma ltb_total (a b : string) :
  String.ltb a b = false -> a <> b -> String.ltb b a = true.
Proof.
  unfold String.ltb. intros Hab Hne.
  rewrite String.compare_antisym.
  destruct (String.compare a b) eqn:E; simpl; try reflexivity; try discriminate.
  apply String.compare_eq_iff in E. contradiction.
Qed.

Lemma insert_item_perm (x : item) (l : list item) : insert_item x l ≡ₚ x :: l.
Proof.
  induction l as [|y l IH]; simpl; [reflexivity|].
  destruct (item_ltb y x); [|reflexivity].
  rewrite IH. apply perm_swap.
Qed.

Lemma sorted_cons (x : item) (l : list item) :
  sorted (x :: l) = insert_item x (sorted l).
Proof. reflexivity. Qed.

Lemma sorted_perm (l : list item) : sorted l ≡ₚ l.
Proof.
  induction l as [|x l IH]; [reflexivity|].
  rewrite sorted_cons, insert_item_perm. now rewrite IH.
Qed.

Lemma insert_item_sorted (x : item) (l : list item) :
  StronglySorted item_lt l -> fst x ∉ keys l ->
  StronglySorted item_lt (insert_item x l).
Proof.
  induction l as [|y l IH]; simpl; intros Hs Hx.
  - repeat constructor.
  - apply StronglySorted_inv in Hs as [Hs Hy].
    apply not_elem_of_cons in Hx as [Hxy Hx].
    destruct (item_ltb y x) eqn:E.
    + constructor; [now apply IH|].
      rewrite insert_item_perm. constructor; assumption.
    + assert (Hlt : item_lt x y) by (apply ltb_total; [exact E | congruence]).
      constructor; [constructor; assumption|].
      constructor; [exact Hlt|].
      eapply Forall_impl; [exact Hy|].
      intros z Hz. unfold item_lt, item_ltb in *. eapply ltb_trans; eassumption.
Qed.

Lemma sorted_strongly (l : list item) :
  dict_wf l -> StronglySorted item_lt (sorted l).
Proof.
  unfold dict_wf. induction l as [|x l IH]; intros Hnd.
  - constructor.
  - rewrite sorted_cons. simpl in Hnd. apply NoDup_cons in Hnd as [Hx Hnd].
    apply insert_item_sorted; [now apply IH|].
    unfold keys. rewrite sorted_perm. exact Hx.
Qed.

(** Two insertion orders of one dictionary sort to the same list. *)
Lemma sorted_unique (l1 l2 : list item) :
  dict_wf l1 -> l1 ≡ₚ l2 -> sorted l1 = sorted l2.
Proof.
  intros Hwf Hp.
  assert (Hwf2 : dict_wf l2) by (unfold dict_wf, keys in *; now rewrite <- Hp).
  apply (StronglySorted_unique_strong item_lt).
  - intros x1 x2 _ _ H12 H21. unfold item_lt, item_ltb in *.
    pose proof (ltb_trans _ _ _ H12 H21) as Hxx.
    rewrite ltb_irrefl in Hxx. discriminate.
  - now apply sorted_strongly.
  - now apply sorted_strongly.
  - now rewrite !sorted_perm.
Qed.

(* ===================================================================== *)
(** * Dictionaries *)
(* ===================================================================== *)

Lemma dict_get_set (d : dict) (k k' : string) (v : pyval) :
  dict_get (dict_set d k v) k' = if String.eqb k k' then Some v else dict_get d k'.
Proof.
  induction d as [|[k0 v0] d IH]; simpl.
  - reflexivity.
  - destruct (String.eqb k0 k) eqn:E0; simpl.
    + apply String.eqb_eq in E0. subst k0.
      destruct (String.eqb k k'); reflexivity.
    + rewrite IH. destruct (String.eqb k0 k') eqn:E1; [|reflexivity].
      apply String.eqb_eq in E1. subst k0.
      rewrite String.eqb_sym in E0. now rewrite E0.
Qed.

Lemma dict_get_set_same (d : dict) (k : string) (v : pyval) :
  dict_get (dict_set d k v) k = Some v.
Proof. rewrite dict_get_set. now rewrite String.eqb_refl. Qed.

Lemma dict_get_set_other (d : dict) (k k' : string) (v : pyval) :
  k <> k' -> dict_get (dict_set d k v) k' = dict_get d k'.
Proof.
  intros Hne. rewrite dict_get_set.
  destruct (String.eqb k k') eqn:E; [|reflexivity].
  apply String.eqb_eq in E. contradiction.
Qed.

Lemma dict_get_In (d : dict) (k : string) (v : pyval) :
  dict_get d k = Some v -> In (k, v) d.
Proof.
  induction d as [|[k0 v0] d IH]; simpl; [discriminate|].
  destruct (String.eqb k0 k) eqn:E.
  - apply String.eqb_eq in E. intros [= ->]. left. now subst.
  - intros H. right. now apply IH.
Qed.

Lemma keys_dict_set_in (d : dict) (k : string) (v : pyval) :
  In k (keys d) -> keys (dict_set d k v) = keys d.
Proof.
  induction d as [|[k0 v0] d IH]; simpl; [contradiction|].
  intros Hin. destruct (String.eqb k0 k) eqn:E; simpl; [reflexivity|].
  apply String.eqb_neq in E. destruct Hin as [->|Hin]; [contradiction|].
  now rewrite IH.
Qed.

Lemma keys_dict_set_fresh (d : dict) (k : string) (v : pyval) :
  ~ In k (keys d) -> keys (dict_set d k v) = keys d ++ [k].
Proof.
  induction d as [|[k0 v0] d IH]; simpl; [reflexivity|].
  intros Hn. destruct (String.eqb k0 k) eqn:E; simpl.
  - apply String.eqb_eq in E. exfalso. apply Hn. now left.
  - rewrite IH; [reflexivity|]. intros Hin. apply Hn. now right.
Qed.

(** Item assignment keeps the keys distinct. *)
Lemma dict_set_wf (d : dict) (k : string) (v : pyval) :
  dict_wf d -> dict_wf (dict_set d k v).
Proof.
  unfold dict_wf. intros Hnd.
  destruct (in_dec string_dec k (keys d)) as [Hin|Hn].
  { now rewrite keys_dict_set_in. }
  rewrite keys_dict_set_fresh by exact Hn.
  apply NoDup_app. repeat split.
  - exact Hnd.
  - intros x Hx Hx'. apply list_elem_of_singleton in Hx'. subst x.
    apply Hn. now apply list_elem_of_In.
  - apply NoDup_singleton.
Qed.

Lemma without_absent (k : string) (d : dict) : ~ In k (keys d) -> without k d = d.
Proof.
  induction d as [|[k0 v0] d IH]; simpl; intros Hn; [reflexivity|].
  destruct (String.eqb k0 k) eqn:E; simpl.
  - apply String.eqb_eq in E. subst. exfalso. apply Hn. now left.
  - f_equal. apply IH. intros Hin. apply Hn. now right.
Qed.


Lemma dict_set_without (d : dict) (k : string) (v : pyval) :
  dict_wf d -> dict_set d k v ≡ₚ (k, v) :: without k d.
Proof.
  unfold dict_wf. induction d as [|[k0 v0] d IH]; simpl; intros Hnd.
  - reflexivity.
  - apply NoDup_cons in Hnd as [Hk0 Hnd].
    destruct (String.eqb k0 k) eqn:E; simpl.
    + apply String.eqb_eq in E. subst k0.
      rewrite without_absent; [reflexivity|].
      intros Hin. apply Hk0. now apply list_elem_of_In.
    + rewrite (IH Hnd). apply perm_swap.
Qed.



Lemma signed_copy_wf (me : manager) (P : dict) : dict_wf P -> dict_wf (signed_copy me P).
Proof. intros H. unfold signed_copy. now do 2 apply dict_set_wf. Qed.



(* ===================================================================== *)
(** * [init_tbank] *)
(* ===================================================================== *)

Lemma init_tbank_ok (w : world) (s : state) (tk pw : pyval) :
  credentials (db_get_tbank_settings w) = Some (tk, pw) ->
  init_tbank w s =
  Step (Returns true) (initialized_with tk pw s)
       [EvGetSettings;
        EvLog INFO ("TBank initialized with terminal_key: " +++ py_str tk)].
Proof.
  unfold credentials, init_tbank. intros H.
  destruct (db_get_tbank_settings w) as [[r|]|e] eqn:Hdb; try discriminate.
  destruct r as [|x0 [|x1 [|x2 [|x3 r]]]]; try discriminate.
  cbn in H.
  destruct (truthy x2) eqn:T2; [|discriminate].
  destruct (truthy x3) eqn:T3; [|discriminate].
  injection H as <- <-.
  run_monad. rewrite Hdb. step_monad. rewrite T2. step_monad. rewrite T3.
  reflexivity.
Qed.


Lemma init_tbank_ko (w : world) (s : state) :
  credentials (db_get_tbank_settings w) = None ->
  exists msg, init_tbank w s = Step (Returns false) s [EvGetSettings; EvLog ERROR msg].
Proof.
  unfold credentials, init_tbank. intros H.
  destruct (db_get_tbank_settings w) as [[r|]|e] eqn:Hdb.
  - destruct r as [|x0 [|x1 [|x2 [|x3 r]]]];
      run_monad; rewrite Hdb; step_monad; try (eexists; reflexivity).
    + destruct (truthy x2); step_monad; eexists; reflexivity.
    + cbn in H. destruct (truthy x2); step_monad; [|eexists; reflexivity].
      destruct (truthy x3); step_monad; [discriminate|eexists; reflexivity].
  - run_monad. rewrite Hdb. step_monad. eexists; reflexivity.
  - run_monad. rewrite Hdb. step_monad. eexists; reflexivity.
Qed.

(* ===================================================================== *)
(** * Running the monad and the object store *)
(* ===================================================================== *)

Lemma after_nil {A} (r : step A) : after [] r = r.
Proof. now destruct r. Qed.

Lemma bind_returns {A B} (m : M A) (k : A -> M B) w s a s1 evs :
  m w s = Step (Returns a) s1 evs -> bind m k w s = after evs (k a w s1).
Proof. unfold bind. now intros ->. Qed.

Lemma bind_raises {A B} (m : M A) (k : A -> M B) w s e s1 evs :
  m w s = Step (Raises e) s1 evs -> bind m k w s = Step (Raises e) s1 evs.
Proof. unfold bind. now intros ->. Qed.

Lemma read_dict_run (a : addr) (w : world) (s : state) (d : dict) :
  heap s !! a = Some d -> read_dict a w s = Step (Returns d) s [].
Proof. unfold read_dict. now intros ->. Qed.

Lemma dict_setitem_run (a : addr) (k : string) (v : pyval) w (s : state) (d : dict) :
  heap s !! a = Some d ->
  dict_setitem a k v w s
  = Step (Returns tt) (State (self s) (<[a := dict_set d k v]> (heap s))) [].
Proof.
  intros H. unfold dict_setitem.
  rewrite (bind_returns _ _ _ _ _ _ _ (read_dict_run a w s d H)).
  reflexivity.
Qed.

Lemma dict_copy_run (a : addr) w (s : state) (d : dict) :
  heap s !! a = Some d ->
  dict_copy a w s
  = Step (Returns (List.length (heap s))) (State (self s) (heap s ++ [d])) [].
Proof.
  intros H. unfold dict_copy.
  rewrite (bind_returns _ _ _ _ _ _ _ (read_dict_run a w s d H)).
  reflexivity.
Qed.

Lemma generate_token_run (a : addr) w (s : state) (d : dict) :
  heap s !! a = Some d ->
  _generate_token a w s
  = Step (Returns (Sha256.hexdigest
                     (token_str (sorted (dict_set d "Password" (password (self s)))))))
         (State (self s) (<[a := dict_set d "Password" (password (self s))]> (heap s)))
         [].
Proof.
  intros H. pose proof (lookup_lt_Some _ _ _ H) as Hlt. unfold _generate_token.
  rewrite (bind_returns _ _ w s (self s) s []) by reflexivity. rewrite after_nil.
  rewrite (bind_returns _ _ _ _ _ _ _ (dict_setitem_run a _ _ w s d H)). rewrite after_nil.
  unfold dict_items.
  erewrite bind_returns; [|apply read_dict_run; cbn [heap]; now apply list_lookup_insert_eq].
  reflexivity.
Qed.

Lemma session_post_run (url : string) (a : addr) w (s : state) (body : dict) :
  heap s !! a = Some body ->
  session_post url a w s = Step (http_post_json w url body) s [EvHttpPost url body].
Proof.
  intros H. unfold session_post.
  rewrite (bind_returns _ _ _ _ _ _ _ (read_dict_run a w s body H)).
  rewrite after_nil. reflexivity.
Qed.

(* ===================================================================== *)
(** * [_post] *)
(* ===================================================================== *)

Lemma post_unfold (endpoint : string) (data : addr) :
  _post endpoint data =
  (me <- get_self ;;
   not_ready <-
     (if negb (is_initialized me) then ok <- init_tbank ;; ret (negb ok)
      else ret false) ;;
   if not_ready then ret VNone else post_request endpoint data).
Proof. reflexivity. Qed.

Lemma post_request_run (endpoint : string) (data : addr) (w : world) (s : state) (P : dict) :
  heap s !! data = Some P ->
  post_request endpoint data w s = post_outcome endpoint data w s P.
Proof.
  intros Hdata.
  pose proof (lookup_lt_Some _ _ _ Hdata) as Hlt.
  unfold post_request.
  rewrite (bind_returns _ _ w s (self s) s []) by reflexivity. rewrite after_nil.
  rewrite (bind_returns _ _ _ _ _ _ _ (dict_setitem_run data _ _ w s P Hdata)).
  rewrite after_nil.
  set (d1 := dict_set P "TerminalKey" (terminal_key (self s))).
  set (h1 := <[data := d1]> (heap s)).
  assert (Hh1 : h1 !! data = Some d1) by (now apply list_lookup_insert_eq).
  assert (Hlen1 : List.length h1 = List.length (heap s)) by (apply length_insert).
  erewrite bind_returns; [|apply dict_copy_run; exact Hh1]. rewrite after_nil.
  cbn [self heap].
  erewrite bind_returns;
    [|apply generate_token_run; cbn [heap]; now apply list_lookup_middle].
  rewrite after_nil. cbn [self heap password].
  rewrite insert_app_r_alt by lia. rewrite Nat.sub_diag. cbn [insert list_insert].
  fold (signed_copy (self s) P). fold (signed_string (self s) P).
  fold (signature (self s) P).
  erewrite bind_returns;
    [|apply dict_setitem_run; cbn [heap]; rewrite lookup_app_l by lia; exact Hh1].
  rewrite after_nil. cbn [self heap].
  rewrite insert_app_l by lia. subst h1. rewrite list_insert_insert_eq.
  fold d1. fold (request_body (self s) P).
  unfold bind at 1.
  erewrite session_post_run;
    [|cbn [heap]; rewrite lookup_app_l by (rewrite length_insert; lia);
      now apply list_lookup_insert_eq].
  unfold post_outcome, posted_state.
  change (request_body (self s) P) with
    (dict_set d1 "Token" (VStr (Sha256.hexdigest
       (token_str (sorted (dict_set d1 "Password" (password (self s)))))))).
  destruct (http_post_json w _ _) as [v|e]; [|reflexivity].
  destruct v; try reflexivity.
  unfold py_get, py_get_default, field.
  cbn [bind ret after app].
  destruct (truthy _); reflexivity.
Qed.

Lemma post_ready (endpoint : string) (data : addr) (w : world) (s : state) (P : dict) :
  is_initialized (self s) = true ->
  heap s !! data = Some P ->
  _post endpoint data w s = post_outcome endpoint data w s P.
Proof.
  intros Hinit Hdata. rewrite post_unfold.
  rewrite (bind_returns _ _ w s (self s) s []) by reflexivity. rewrite after_nil.
  rewrite Hinit. cbn [negb].
  rewrite (bind_returns _ _ w s false s []) by reflexivity. rewrite after_nil.
  now apply post_request_run.
Qed.

Lemma post_init_ok (endpoint : string) (data : addr) (w : world) (s : state)
    (tk pw : pyval) (P : dict) :
  is_initialized (self s) = false ->
  credentials (db_get_tbank_settings w) = Some (tk, pw) ->
  heap s !! data = Some P ->
  _post endpoint data w s
  = after [EvGetSettings;
           EvLog INFO ("TBank initialized with terminal_key: " +++ py_str tk)]
          (post_outcome endpoint data w (initialized_with tk pw s) P).
Proof.
  intros Hinit Hcred Hdata. rewrite post_unfold.
  rewrite (bind_returns _ _ w s (self s) s []) by reflexivity. rewrite after_nil.
  rewrite Hinit. cbn [negb].
  erewrite bind_returns;
    [|erewrite bind_returns; [|exact (init_tbank_ok w s tk pw Hcred)]; reflexivity].
  cbn [negb app after].
  rewrite (post_request_run endpoint data w (initialized_with tk pw s) P Hdata).
  reflexivity.
Qed.

Lemma post_init_ko (endpoint : string) (data : addr) (w : world) (s : state) :
  is_initialized (self s) = false ->
  credentials (db_get_tbank_settings w) = None ->
  exists msg,
    _post endpoint data w s = Step (Returns VNone) s [EvGetSettings; EvLog ERROR msg].
Proof.
  intros Hinit Hcred. rewrite post_unfold.
  destruct (init_tbank_ko w s Hcred) as [msg Hrun]. exists msg.
  rewrite (bind_returns _ _ w s (self s) s []) by reflexivity. rewrite after_nil.
  rewrite Hinit. cbn [negb].
  erewrite bind_returns;
    [|erewrite bind_returns; [|exact Hrun]; reflexivity].
  reflexivity.
Qed.

(** The three ways through [_post]. *)
Lemma post_cases (endpoint : string) (data : addr) (w : world) (s : state) (P : dict) :
  heap s !! data = Some P ->
  (exists msg,
     is_initialized (self s) = false /\
     credentials (db_get_tbank_settings w) = None /\
     _post endpoint data w s = Step (Returns VNone) s [EvGetSettings; EvLog ERROR msg])
  \/
  (exists pre s0,
     (is_initialized (self s) = true \/ credentials (db_get_tbank_settings w) <> None) /\
     quiet pre /\
     _post endpoint data w s = after pre (post_outcome endpoint data w s0 P)).
Proof.
  intros Hdata.
  destruct (is_initialized (self s)) eqn:Hinit.
  - right. exists [], s. split; [now left|]. split; [now split|].
    rewrite after_nil. now apply post_ready.
  - destruct (credentials (db_get_tbank_settings w)) as [[tk pw]|] eqn:Hcred.
    + right. eexists _, _. split; [right; discriminate|].
      split; [|exact (post_init_ok endpoint data w s tk pw P Hinit Hcred Hdata)].
      now split.
    + left. destruct (post_init_ko endpoint data w s Hinit Hcred) as [msg H].
      exists msg. now repeat split.
Qed.

Lemma request_body_get (me : manager) (P : dict) (k : string) :
  k <> "TerminalKey" -> k <> "Token" ->
  dict_get (request_body me P) k = dict_get P k.
Proof.
  intros H1 H2. unfold request_body.
  rewrite !dict_get_set_other by congruence. reflexivity.
Qed.

Lemma http_requests_app (l1 l2 : list event) :
  http_requests (l1 ++ l2) = http_requests l1 ++ http_requests l2.
Proof. unfold http_requests. now rewrite flat_map_app. Qed.

Lemma notifier_calls_app (l1 l2 : list event) :
  notifier_calls (l1 ++ l2) = notifier_calls l1 ++ notifier_calls l2.
Proof. unfold notifier_calls. now rewrite List.filter_app. Qed.

Hint Rewrite http_requests_app notifier_calls_app : events.

(* ===================================================================== *)
(** * [create_payment] *)
(* ===================================================================== *)

Lemma create_payment_run (amount : spec_float) (description : string)
    (user_email user_id tariff_name username : pyval) (w : world) (s : state) :
  let run := create_payment amount description user_email user_id tariff_name
                            username w s in
  (result run = Returns (VNone, VNone) /\ http_requests (emitted run) = [] /\
   (float_trunc (float_mul amount (float_of_int 100)) = None \/
    (is_initialized (self s) = false /\
     credentials (db_get_tbank_settings w) = None)))
  \/
  (exists z url body,
     float_trunc (float_mul amount (float_of_int 100)) = Some z /\
     (is_initialized (self s) = true \/
      credentials (db_get_tbank_settings w) <> None) /\
     http_requests (emitted run) = [(url, body)] /\
     dict_get body "Amount" = Some (VInt z) /\
     result run = Returns (payment_of_response (http_post_json w url body))).
Proof.
  intros run.
  assert (Erun : run = create_payment amount description user_email user_id
                         tariff_name username w s) by reflexivity.
  clearbody run.
  unfold create_payment, create_payment_try, try_except in Erun.
  rewrite (bind_returns _ _ w s (uuid4 w) s []) in Erun by reflexivity.
  rewrite after_nil in Erun. unfold py_int in Erun.
  destruct (float_trunc (float_mul amount (float_of_int 100))) as [z|] eqn:Ht.
  - rewrite (bind_returns _ _ w s z s []) in Erun by reflexivity.
    rewrite after_nil in Erun.
    match type of Erun with context [new_dict ?d] => set (P := d) in Erun end.
    rewrite (bind_returns _ _ w s (List.length (heap s))
               (State (self s) (heap s ++ [P])) []) in Erun by reflexivity.
    rewrite after_nil in Erun.
    destruct (post_cases "Init" (List.length (heap s)) w
                (State (self s) (heap s ++ [P])) P)
      as [(msg & Hi & Hc & Hrun) | (pre & s0 & Hor & [Hq1 Hq2] & Hrun)].
    { cbn [heap]. now apply list_lookup_middle. }
    + left. rewrite (bind_returns _ _ _ _ _ _ _ Hrun) in Erun.
      subst run. cbn. auto.
    + right. exists z, (base_url (self s0) +++ "Init"), (request_body (self s0) P).
      split; [reflexivity|]. split; [exact Hor|].
      assert (HA : dict_get (request_body (self s0) P) "Amount" = Some (VInt z)).
      { rewrite request_body_get by discriminate. reflexivity. }
      unfold bind at 1 in Erun. rewrite Hrun in Erun.
      unfold post_outcome in Erun. unfold payment_of_response.
      destruct (http_post_json w _ _) as [v|e]; [destruct v as [| | | | | |r]|].
      all: subst run; crunch; rewrite ?http_requests_app, ?Hq1;
        try (count_events; now repeat split).
      destruct r as [|kv r].
      * cbn [dict_get]. crunch. rewrite ?http_requests_app, ?Hq1.
        count_events. now repeat split.
      * crunch.
        match goal with |- context [truthy ?x] => destruct (truthy x) end.
        all: crunch; rewrite ?http_requests_app, ?Hq1; count_events;
          now repeat split.
  - rewrite (bind_raises _ _ w s _ s []) in Erun by reflexivity.
    left. subst run. cbn. auto.
Qed.

(* ===================================================================== *)
(** * [check_payment] *)
(* ===================================================================== *)

Lemma check_payment_run (payment_id : pyval) (bot : option notifier)
    (w : world) (s : state) :
  let run := check_payment payment_id bot w s in
  (result run = Returns false /\
   http_requests (emitted run) = [] /\ notifier_calls (emitted run) = [] /\
   is_initialized (self s) = false /\
   credentials (db_get_tbank_settings w) = None)
  \/
  (exists url body,
     (is_initialized (self s) = true \/
      credentials (db_get_tbank_settings w) <> None) /\
     http_requests (emitted run) = [(url, body)] /\
     result run = Returns (check_of_response w (http_post_json w url body)) /\
     (notifier_calls (emitted run) <> [] ->
      exists r ns,
        confirmed_response (http_post_json w url body) = Some r /\
        db_fetch_pay_notify w = Returns ns /\
        notify_enabled ns = true)).
Proof.
  intros run.
  assert (Erun : run = check_payment payment_id bot w s) by reflexivity.
  clearbody run.
  unfold check_payment, check_payment_try, try_except in Erun.
  set (P := [("PaymentId", payment_id)]) in Erun.
  rewrite (bind_returns _ _ w s (List.length (heap s))
             (State (self s) (heap s ++ [P])) []) in Erun by reflexivity.
  rewrite after_nil in Erun.
  destruct (post_cases "GetState" (List.length (heap s)) w
              (State (self s) (heap s ++ [P])) P)
    as [(msg & Hi & Hc & Hrun) | (pre & s0 & Hor & [Hq1 Hq2] & Hrun)].
  { cbn [heap]. now apply list_lookup_middle. }
  - left. rewrite (bind_returns _ _ _ _ _ _ _ Hrun) in Erun.
    subst run. cbn. auto.
  - right. exists (base_url (self s0) +++ "GetState"), (request_body (self s0) P).
    split; [exact Hor|].
    unfold bind at 1 in Erun. rewrite Hrun in Erun.
    unfold post_outcome in Erun.
    unfold check_of_response, confirmed_response, notification_completes.
    destruct (http_post_json w _ _) as [v|e]; [destruct v as [| | | | | |r]|].
    all: subst run; try solve [settle Hq1 Hq2].
    destruct r as [|kv r].
    + crunch_check. cbn [dict_get truthy py_eq_str]. settle Hq1 Hq2.
    + crunch_check.
      match goal with |- context [truthy ?x] => destruct (truthy x) end.
      all: crunch_check.
      all: match goal with |- context [py_eq_str ?x ?y] => destruct (py_eq_str x y) end.
      all: try solve [settle Hq1 Hq2].
      all: destruct (db_fetch_pay_notify w) as [[[|target ns]|]|e];
        cbn [notify_enabled]; try solve [settle Hq1 Hq2].
      all: crunch_check; destruct (py_ne_zero target) eqn:Hne;
        try solve [settle Hq1 Hq2].
      all: unfold meta_readable; crunch_check;
        destruct (dict_get (kv :: r) "DATA") as [[| | | | | |meta]|];
        try solve [settle Hq1 Hq2].
      all: crunch_check; destruct bot as [send|]; try solve [settle Hq1 Hq2].
      all: crunch_check; destruct (get_admin_keyboard w) as [kb|e];
        try solve [settle Hq1 Hq2].
      all: crunch_check;
        match goal with
        | |- context [match ?x with Returns _ => _ | Raises _ => _ end] =>
            destruct x as [[]|e]
        end;
        try solve [settle Hq1 Hq2].
Qed.

(* ===================================================================== *)
(** * Properties of the signing step *)
(* ===================================================================== *)

Lemma In_http_requests (u : string) (b : dict) (evs : list event) :
  In (EvHttpPost u b) evs <-> In (u, b) (http_requests evs).
Proof.
  unfold http_requests. rewrite in_flat_map. split.
  - intros H. exists (EvHttpPost u b). split; [exact H|now left].
  - intros [e [He Hin]]. destruct e; try contradiction.
    destruct Hin as [[= -> ->]|[]]. exact He.
Qed.

Lemma post_outcome_requests (endpoint : string) (a : addr) (w : world) (s : state) (P : dict) :
  http_requests (emitted (post_outcome endpoint a w s P))
  = [(base_url (self s) +++ endpoint, request_body (self s) P)].
Proof.
  unfold post_outcome.
  destruct (http_post_json w _ _) as [[| | | | | |r]|e]; try reflexivity.
  cbn [emitted http_requests flat_map app]. destruct (truthy _); reflexivity.
Qed.

Lemma post_outcome_final (endpoint : string) (a : addr) (w : world)
    (s : state) (P : dict) :
  final (post_outcome endpoint a w s P) = posted_state a s P.
Proof.
  unfold post_outcome.
  now destruct (http_post_json w _ _) as [[| | | | | |r]|e].
Qed.

Lemma concat_cons (x : string) (l : list string) :
  String.concat "" (x :: l) = x +++ String.concat "" l.
Proof.
  destruct l as [|y l]; simpl.
  - induction x as [|c x IH]; simpl; [reflexivity|]. unfold String.append in *.
    cbn. now rewrite <- IH.
  - reflexivity.
Qed.

Lemma append_assoc (a b c : string) : (a +++ b) +++ c = a +++ b +++ c.
Proof.
  induction a as [|x a IH]; [reflexivity|].
  change ((String x a +++ b) +++ c) with (String x ((a +++ b) +++ c)).
  now rewrite IH.
Qed.

(** The string of a value is a segment of the concatenation. *)
Lemma token_str_contains (k : string) (v : pyval) (l : list item) :
  In (k, v) l -> exists pre post, token_str l = pre +++ py_str v +++ post.
Proof.
  unfold token_str. induction l as [|[k0 v0] l IH]; [contradiction|].
  intros [[= -> ->]|Hin]; cbn [map]; rewrite concat_cons.
  - exists "", (String.concat "" (map (fun kv : item => let (_, x) := kv in py_str x) l)).
    reflexivity.
  - destruct (IH Hin) as (pre & post & ->).
    exists (py_str v0 +++ pre), post. now rewrite append_assoc.
Qed.

Lemma password_is_signed (me : manager) (P : dict) :
  In ("Password", password me) (sorted (signed_copy me P)).
Proof.
  apply list_elem_of_In. rewrite sorted_perm. apply list_elem_of_In.
  apply dict_get_In. unfold signed_copy. apply dict_get_set_same.
Qed.







(** C2.  On an initialized client the cached password enters the hash and
    is not put into the request.  [_post] sends one request; its [Token]
    is the digest of a string in which the string of the cached password
    occurs, because the password is an item of the sorted copy.  The
    password is assigned in the copy only: every field of the body other
    than [TerminalKey] and [Token], and [Password] in particular, is what
    the caller's payload had under that key, so a payload without a
    [Password] is sent without one. *)
Theorem post_password_hashed_not_sent (endpoint : string) (data : addr)
    (w : world) (s : state) (P : dict) :
  is_initialized (self s) = true ->
  heap s !! data = Some P ->
  exists body hashed pre post,
    http_requests (emitted (_post endpoint data w s))
      = [(base_url (self s) +++ endpoint, body)] /\
    dict_get body "Token" = Some (VStr (Sha256.hexdigest hashed)) /\
    hashed = token_str (sorted (signed_copy (self s) P)) /\
    In ("Password", password (self s)) (sorted (signed_copy (self s) P)) /\
    hashed = pre +++ py_str (password (self s)) +++ post /\
    (forall k, k <> "TerminalKey" -> k <> "Token" -> dict_get body k = dict_get P k) /\
    (dict_get P "Password" = None -> dict_get body "Password" = None).
Proof.
  intros Hinit Hdata.
  destruct (token_str_contains _ _ _ (password_is_signed (self s) P))
    as (pre & post & Hseg).
  exists (request_body (self s) P), (signed_string (self s) P), pre, post.
  rewrite (post_ready endpoint data w s P Hinit Hdata), post_outcome_requests.
  split; [reflexivity|]. split; [|split; [reflexivity|split; [|split; [|split]]]].
  - unfold request_body. apply dict_get_set_same.
  - apply password_is_signed.
  - exact Hseg.
  - intros k Hk1 Hk2. now apply request_body_get.
  - intros Hnone. rewrite request_body_get by discriminate. exact Hnone.
Qed.

(** C10.  [_post] changes the dictionary it is given.  After a call on an
    initialized client, whatever the transport did, the object at the
    caller's address holds the cached terminal key under [TerminalKey] and
    the computed signature under [Token]; its [Password] field and every
    other field are as the caller left them, so no [Password] is added. *)
Theorem post_mutates_callers_dict (endpoint : string) (data : addr)
    (w : world) (s : state) (P : dict) :
  is_initialized (self s) = true ->
  heap s !! data = Some P ->
  exists P',
    heap (final (_post endpoint data w s)) !! data = Some P' /\
    dict_get P' "TerminalKey" = Some (terminal_key (self s)) /\
    dict_get P' "Token" = Some (VStr (signature (self s) P)) /\
    dict_get P' "Password" = dict_get P "Password" /\
    (forall k, k <> "TerminalKey" -> k <> "Token" -> dict_get P' k = dict_get P k).
Proof.
  intros Hinit Hdata. exists (request_body (self s) P).
  rewrite (post_ready endpoint data w s P Hinit Hdata), post_outcome_final.
  pose proof (lookup_lt_Some _ _ _ Hdata) as Hlt.
  split; [|split; [|split; [|split]]].
  - unfold posted_state. cbn [heap].
    rewrite lookup_app_l by (rewrite length_insert; exact Hlt).
    now apply list_lookup_insert_eq.
  - unfold request_body. rewrite dict_get_set_other by discriminate.
    apply dict_get_set_same.
  - unfold request_body. apply dict_get_set_same.
  - apply request_body_get; discriminate.
  - intros k Hk1 Hk2. apply request_body_get; congruence.
Qed.

(* ===================================================================== *)
(** * Properties of [create_payment] *)
(* ===================================================================== *)

(** C3.  From the processor's answer to the [Init] request to the result
    of [create_payment]: when the answer is a mapping [r], the result is
    the pair of its [PaymentId] and [PaymentURL] if its [Success] field is
    true, and [(None, None)] if not; and when no request that the
    processor answered with a mapping was made, the result is
    [(None, None)]. *)
Theorem create_payment_returns_ids (amount : spec_float) (description : string)
    (user_email user_id tariff_name username : pyval) (w : world) (s : state) :
  let run := create_payment amount description user_email user_id tariff_name
                            username w s in
  (forall url body r,
     In (EvHttpPost url body) (emitted run) ->
     http_post_json w url body = Returns (VDict r) ->
     result run =
     Returns (if truthy (field r "Success")
              then (field r "PaymentId", field r "PaymentURL")
              else (VNone, VNone)))
  /\
  ((forall url body r,
      In (EvHttpPost url body) (emitted run) ->
      http_post_json w url body <> Returns (VDict r)) ->
   result run = Returns (VNone, VNone)).
Proof.
  intros run.
  destruct (create_payment_run amount description user_email user_id tariff_name
              username w s)
    as [(Hres & Hreq & _) | (z & url0 & body0 & _ & _ & Hreq & _ & Hres)];
    fold run in Hres, Hreq.
  - split; [|intros _; exact Hres].
    intros url body r Hin _. apply In_http_requests in Hin.
    rewrite Hreq in Hin. contradiction.
  - split.
    + intros url body r Hin Hresp. apply In_http_requests in Hin.
      rewrite Hreq in Hin. destruct Hin as [[= <- <-]|[]].
      rewrite Hres, Hresp. reflexivity.
    + intros Hnone. rewrite Hres. unfold payment_of_response.
      destruct (http_post_json w url0 body0) as [[| | | | | |r]|e] eqn:Hresp;
        try reflexivity.
      exfalso. apply (Hnone url0 body0 r); [|exact Hresp].
      apply In_http_requests. rewrite Hreq. now left.
Qed.

(** A client that is or becomes initialized sends the request whenever
    the product has an integer value. *)
Lemma create_payment_sends_amount (amount : spec_float) (description : string)
    (user_email user_id tariff_name username : pyval) (w : world) (s : state)
    (minor : Z) :
  float_trunc (float_mul amount (float_of_int 100)) = Some minor ->
  is_initialized (self s) = true \/ credentials (db_get_tbank_settings w) <> None ->
  exists url body,
    http_requests
      (emitted (create_payment amount description user_email user_id tariff_name
                               username w s)) = [(url, body)] /\
    dict_get body "Amount" = Some (VInt minor).
Proof.
  intros Hminor Hready.
  destruct (create_payment_run amount description user_email user_id tariff_name
              username w s)
    as [(_ & _ & [Hnone|[Hi Hc]]) | (z & url & body & Hz & _ & Hreq & Hamount & _)].
  - congruence.
  - destruct Hready; congruence.
  - exists url, body. split; [exact Hreq|]. congruence.
Qed.

(** C8.  The [Amount] of every request that [create_payment] sends is the
    integer obtained by multiplying the amount by [100] (in binary64) and
    truncating the product. *)
Theorem create_payment_amount_minor_units (amount : spec_float) (description : string)
    (user_email user_id tariff_name username : pyval) (w : world) (s : state)
    (url : string) (body : dict) :
  In (EvHttpPost url body)
     (emitted (create_payment amount description user_email user_id tariff_name
                              username w s)) ->
  exists minor,
    float_trunc (float_mul amount (float_of_int 100)) = Some minor /\
    dict_get body "Amount" = Some (VInt minor).
Proof.
  intros Hin. apply In_http_requests in Hin.
  destruct (create_payment_run amount description user_email user_id tariff_name
              username w s)
    as [(_ & Hreq & _) | (z & url0 & body0 & Hz & _ & Hreq & Hamount & _)];
    cbv zeta in Hreq; rewrite Hreq in Hin.
  - contradiction.
  - destruct Hin as [[= <- <-]|[]]. exists z. now split.
Qed.

(* ===================================================================== *)
(** * Properties of [check_payment] *)
(* ===================================================================== *)

Lemma py_eq_str_field (r : dict) (k s : string) :
  py_eq_str (field r k) s = true <-> dict_get r k = Some (VStr s).
Proof.
  unfold field. destruct (dict_get r k) as [[| | | |s'| |]|]; simpl;
    try (split; [discriminate|intros [=]]).
  rewrite String.eqb_eq. split; [now intros ->|now intros [= ->]].
Qed.

Lemma confirmed_response_Some (resp : outcome pyval) (r : dict) :
  confirmed_response resp = Some r <->
  resp = Returns (VDict r) /\ dict_get r "Status" = Some (VStr "CONFIRMED").
Proof.
  unfold confirmed_response.
  destruct resp as [[| | | | | |r']|e]; try (split; [discriminate|now intros [[=] _]]).
  destruct (py_eq_str (field r' "Status") "CONFIRMED") eqn:E.
  - apply py_eq_str_field in E. split.
    + intros [= <-]. now split.
    + intros [[= <-] _]. reflexivity.
  - split; [discriminate|]. intros [[= <-] H]. apply py_eq_str_field in H. congruence.
Qed.

(** C4, as the code has it.  [check_payment] always returns a boolean, and
    it returns [True] exactly when the [GetState] request was answered with
    a mapping whose [Status] is the string [CONFIRMED] and the steps that
    follow complete: the notification target is read without an exception
    and, when notifications are enabled, the [DATA] field of the answer is
    a mapping or missing.  For every other status, for an answer that is
    not a mapping, and when no request was answered, it returns [False]. *)
Theorem check_payment_true_iff (payment_id : pyval) (bot : option notifier)
    (w : world) (s : state) :
  let run := check_payment payment_id bot w s in
  (result run = Returns true <->
   exists url body r,
     In (EvHttpPost url body) (emitted run) /\
     http_post_json w url body = Returns (VDict r) /\
     dict_get r "Status" = Some (VStr "CONFIRMED") /\
     notification_completes w r = true)
  /\
  (result run = Returns true \/ result run = Returns false).
Proof.
  intros run.
  destruct (check_payment_run payment_id bot w s)
    as [(Hres & Hreq & _) | (url0 & body0 & _ & Hreq & Hres & _)];
    fold run in Hres, Hreq.
  - split; [|now right]. rewrite Hres. split; [discriminate|].
    intros (url & body & r & Hin & _). apply In_http_requests in Hin.
    rewrite Hreq in Hin. contradiction.
  - split.
    + rewrite Hres. unfold check_of_response. split.
      * intros [= H].
        destruct (confirmed_response (http_post_json w url0 body0)) as [r|] eqn:Hc;
          [|discriminate].
        apply confirmed_response_Some in Hc as [Hresp Hst].
        exists url0, body0, r. repeat split; try assumption.
        apply In_http_requests. rewrite Hreq. now left.
      * intros (url & body & r & Hin & Hresp & Hst & Hcompl).
        apply In_http_requests in Hin. rewrite Hreq in Hin.
        destruct Hin as [[= <- <-]|[]].
        assert (Hc : confirmed_response (http_post_json w url0 body0) = Some r)
          by (now apply confirmed_response_Some).
        rewrite Hc, Hcompl. reflexivity.
    + rewrite Hres. destruct (check_of_response _ _); [now left|now right].
Qed.

(** Where the code skips the notification: when the processor reports
    [CONFIRMED] and the query for the notification target finds no row, or
    a row whose first column is the integer [0], [check_payment] returns
    [True] and the notifier is not called. *)
Theorem confirmed_without_target_skips_notifier (payment_id : pyval)
    (bot : option notifier) (w : world) (s : state) (url : string) (body r : dict) :
  let run := check_payment payment_id bot w s in
  In (EvHttpPost url body) (emitted run) ->
  http_post_json w url body = Returns (VDict r) ->
  dict_get r "Status" = Some (VStr "CONFIRMED") ->
  target_disabled (db_fetch_pay_notify w) ->
  result run = Returns true /\ notifier_calls (emitted run) = [].
Proof.
  intros run Hin Hresp Hst Hoff. apply In_http_requests in Hin.
  destruct (check_payment_run payment_id bot w s)
    as [(_ & Hreq & _) | (url0 & body0 & _ & Hreq & Hres & Hcalls)];
    fold run in Hreq; rewrite Hreq in Hin; [contradiction|].
  fold run in Hres, Hcalls.
  destruct Hin as [[= <- <-]|[]].
  assert (Hc : confirmed_response (http_post_json w url0 body0) = Some r)
    by (now apply confirmed_response_Some).
  assert (Hdis : forall ns, db_fetch_pay_notify w = Returns ns ->
                            notify_enabled ns = false).
  { intros ns Hns. destruct Hoff as [Hoff|[rest Hoff]];
      rewrite Hoff in Hns; injection Hns as <-; reflexivity. }
  split.
  - rewrite Hres. unfold check_of_response, notification_completes. rewrite Hc.
    destruct (db_fetch_pay_notify w) as [ns|e] eqn:Hns.
    + now rewrite (Hdis ns eq_refl).
    + destruct Hoff as [Hoff|[rest Hoff]]; discriminate.
  - destruct (notifier_calls (emitted run)) as [|c cs] eqn:Hn; [reflexivity|].
    destruct Hcalls as (r' & ns & _ & Hns & Hen); [discriminate|].
    rewrite (Hdis ns Hns) in Hen. discriminate.
Qed.

(* ===================================================================== *)
(** * Exceptions and initialization failures *)
(* ===================================================================== *)






Lemma init_false_credentials (w : world) (s : state) :
  result (init_tbank w s) = Returns false ->
  credentials (db_get_tbank_settings w) = None.
Proof.
  intros H.
  destruct (credentials (db_get_tbank_settings w)) as [[tk pw]|] eqn:Hc;
    [|reflexivity].
  rewrite (init_tbank_ok w s tk pw Hc) in H. discriminate.
Qed.

(** C6.  If the client is uninitialized and [init_tbank] fails, then
    [create_payment] returns [(None, None)], [check_payment] returns
    [False], and neither sends an HTTP request. *)
Theorem init_failure_sends_nothing (w : world) (s : state) :
  is_initialized (self s) = false ->
  result (init_tbank w s) = Returns false ->
  (forall amount description user_email user_id tariff_name username,
     let run := create_payment amount description user_email user_id tariff_name
                               username w s in
     result run = Returns (VNone, VNone) /\ http_requests (emitted run) = [])
  /\
  (forall payment_id bot,
     let run := check_payment payment_id bot w s in
     result run = Returns false /\ http_requests (emitted run) = []).
Proof.
  intros Hinit Hfail. apply init_false_credentials in Hfail. split.
  - intros amount description user_email user_id tariff_name username run.
    destruct (create_payment_run amount description user_email user_id tariff_name
                username w s)
      as [(Hres & Hreq & _) | (z & url & body & _ & [Hi|Hc] & _)];
      [now split|congruence|contradiction].
  - intros payment_id bot run.
    destruct (check_payment_run payment_id bot w s)
      as [(Hres & Hreq & _) | (url & body & [Hi|Hc] & _)];
      [now split|congruence|contradiction].
Qed.

Lemma unconfigured_credentials (o : outcome (option row)) :
  settings_unconfigured o -> credentials o = None.
Proof.
  intros [->|(r & -> & Hmiss)]; [reflexivity|].
  unfold credentials, column_missing in *.
  destruct (r !! 2%nat) as [tk|]; [|reflexivity].
  destruct (r !! 3%nat) as [pw|]; [|reflexivity].
  destruct Hmiss as [->| ->]; [reflexivity|].
  now rewrite andb_false_r.
Qed.

(** C9, as the code has it.  When the settings store has no row, or the
    terminal key or the password of its row is empty or absent,
    [init_tbank] returns [False] and changes nothing: the client is left
    in the state it was in, so an uninitialized client stays
    uninitialized. *)
Theorem init_unconfigured_keeps_state (w : world) (s : state) :
  settings_unconfigured (db_get_tbank_settings w) ->
  result (init_tbank w s) = Returns false /\
  final (init_tbank w s) = s /\
  (is_initialized (self s) = false ->
   is_initialized (self (final (init_tbank w s))) = false).
Proof.
  intros Hun. apply unconfigured_credentials in Hun.
  destruct (init_tbank_ko w s Hun) as [msg ->]. cbn [result final].
  repeat split. intros H. exact H.
Qed.

(* ===================================================================== *)
(** * The whole run of the public coroutines *)
(* ===================================================================== *)

Lemma credentials_Some (o : outcome (option row)) (tk pw : pyval) :
  credentials o = Some (tk, pw) <->
  exists r, o = Returns (Some r) /\ r !! 2%nat = Some tk /\ r !! 3%nat = Some pw /\
            truthy tk = true /\ truthy pw = true.
Proof.
  unfold credentials. split.
  - destruct o as [[r|]|e]; try discriminate.
    destruct (r !! 2%nat) as [x2|] eqn:E2; [|discriminate].
    destruct (r !! 3%nat) as [x3|] eqn:E3; [|discriminate].
    destruct (truthy x2) eqn:T2; [|discriminate].
    destruct (truthy x3) eqn:T3; [|discriminate].
    intros [= <- <-]. exists r. now repeat split.
  - intros (r & -> & -> & -> & -> & ->). reflexivity.
Qed.

(** The three ways through [_post], with the client that makes the
    request. *)
Lemma post_ways (endpoint : string) (data : addr) (w : world) (s : state) (P : dict) :
  heap s !! data = Some P ->
  (exists msg,
     is_initialized (self s) = false /\
     credentials (db_get_tbank_settings w) = None /\
     _post endpoint data w s = Step (Returns VNone) s [EvGetSettings; EvLog ERROR msg])
  \/
  (exists pre,
     (is_initialized (self s) = true \/ credentials (db_get_tbank_settings w) <> None) /\
     settings_reads pre = (if is_initialized (self s) then [] else [EvGetSettings]) /\
     http_requests pre = [] /\ notifier_calls pre = [] /\ notify_reads pre = [] /\
     _post endpoint data w s
     = after pre (post_outcome endpoint data w
                    (State (client_after w (self s)) (heap s)) P)).
Proof.
  intros Hdata. unfold client_after.
  destruct (is_initialized (self s)) eqn:Hinit.
  - right. exists []. split; [now left|]. do 4 (split; [reflexivity|]).
    rewrite after_nil. destruct s as [me h]. now apply post_ready.
  - destruct (credentials (db_get_tbank_settings w)) as [[tk pw]|] eqn:Hcred.
    + right.
      exists [EvGetSettings;
              EvLog INFO ("TBank initialized with terminal_key: " +++ py_str tk)].
      split; [right; discriminate|]. do 4 (split; [reflexivity|]).
      exact (post_init_ok endpoint data w s tk pw P Hinit Hcred Hdata).
    + left. destruct (post_init_ko endpoint data w s Hinit Hcred) as [msg H].
      exists msg. now repeat split.
Qed.

(** [create_payment] from the request on: the result is read off the
    answer, the store is as [_post] left it, and only log records follow
    the request. *)
Lemma create_payment_after_request (amount : spec_float) (description : string)
    (user_email user_id tariff_name username : pyval) (w : world) (s : state)
    (z : Z) (pre : list event) (s0 : state) :
  let a := List.length (heap s) in
  let P := init_payload (uuid4 w) z description user_id tariff_name username in
  let url := base_url (self s0) +++ "Init" in
  let body := request_body (self s0) P in
  float_trunc (float_mul amount (float_of_int 100)) = Some z ->
  _post "Init" a w (State (self s) (heap s ++ [P]))
    = after pre (post_outcome "Init" a w s0 P) ->
  exists tail,
    create_payment amount description user_email user_id tariff_name username w s
    = Step (Returns (payment_of_response (http_post_json w url body)))
           (posted_state a s0 P) (pre ++ EvHttpPost url body :: tail) /\
    forallb is_log tail = true.
Proof.
  intros a P url body Ht Hrun. subst url body.
  unfold create_payment, create_payment_try, try_except.
  rewrite (bind_returns _ _ w s (uuid4 w) s []) by reflexivity.
  rewrite after_nil. unfold py_int. rewrite Ht.
  rewrite (bind_returns _ _ w s z s []) by reflexivity.
  rewrite after_nil.
  change (new_dict _) with (new_dict P).
  rewrite (bind_returns _ _ w s a (State (self s) (heap s ++ [P])) []) by reflexivity.
  rewrite after_nil.
  unfold bind at 1. rewrite Hrun.
  unfold post_outcome, payment_of_response.
  destruct (http_post_json w _ _) as [v|e]; [destruct v as [| | | | | |r]|].
  all: try solve [settle_tail].
  destruct r as [|kv r].
  - cbn [dict_get]. settle_tail.
  - crunch. crunch.
    match goal with |- context [truthy ?x] => destruct (truthy x) end.
    all: settle_tail.
Qed.

(** [check_payment] from the request on: the result is read off the
    answer, the store is as [_post] left it, and what follows the request
    holds no further request and no read of the settings; it reads the
    notification target once for a confirmed payment, and calls the
    notifier as [notification_of] says. *)
Lemma check_payment_after_request (payment_id : pyval) (bot : option notifier)
    (w : world) (s : state) (pre : list event) (s0 : state) :
  let a := List.length (heap s) in
  let P := [("PaymentId", payment_id)] in
  let url := base_url (self s0) +++ "GetState" in
  let body := request_body (self s0) P in
  _post "GetState" a w (State (self s) (heap s ++ [P]))
    = after pre (post_outcome "GetState" a w s0 P) ->
  exists tail,
    check_payment payment_id bot w s
    = Step (Returns (check_of_response w (http_post_json w url body)))
           (posted_state a s0 P) (pre ++ EvHttpPost url body :: tail) /\
    http_requests tail = [] /\
    settings_reads tail = [] /\
    notify_reads tail = target_reads (http_post_json w url body) /\
    notifier_calls tail = notification_of w bot (http_post_json w url body).
Proof.
  intros a P url body Hrun. subst url body.
  unfold check_payment, check_payment_try, try_except.
  change (new_dict _) with (new_dict P).
  rewrite (bind_returns _ _ w s a (State (self s) (heap s ++ [P])) []) by reflexivity.
  rewrite after_nil.
  unfold bind at 1. rewrite Hrun.
  unfold post_outcome, check_of_response, target_reads, notification_of,
    expected_call, confirmed_response, notification_completes.
  destruct (http_post_json w _ _) as [v|e]; [destruct v as [| | | | | |r]|].
  all: try solve [settle_tail].
  destruct r as [|kv r].
  - crunch_check. cbn [dict_get truthy py_eq_str]. settle_tail.
  - crunch_check.
    match goal with |- context [truthy ?x] => destruct (truthy x) end.
    all: crunch_check.
    all: match goal with |- context [py_eq_str ?x ?y] => destruct (py_eq_str x y) end.
    all: try solve [settle_tail].
    all: destruct (db_fetch_pay_notify w) as [[[|target ns]|]|e];
      cbn [notify_enabled]; try solve [settle_tail].
    all: crunch_check; destruct (py_ne_zero target) eqn:Hne;
      try solve [settle_tail].
    all: unfold meta_readable, tariff_of; crunch_check;
      destruct (dict_get (kv :: r) "DATA") as [[| | | | | |meta]|];
      try solve [settle_tail].
    all: crunch_check; destruct bot as [send|]; try solve [settle_tail].
    all: crunch_check; destruct (get_admin_keyboard w) as [kb|e];
      try solve [settle_tail].
    all: crunch_check;
      match goal with
      | |- context [match ?x with Returns _ => _ | Raises _ => _ end] =>
          destruct x as [[]|e]
      end;
      try solve [settle_tail].
Qed.

Lemma settings_reads_app (l1 l2 : list event) :
  settings_reads (l1 ++ l2) = settings_reads l1 ++ settings_reads l2.
Proof. unfold settings_reads. now rewrite List.filter_app. Qed.

Lemma notify_reads_app (l1 l2 : list event) :
  notify_reads (l1 ++ l2) = notify_reads l1 ++ notify_reads l2.
Proof. unfold notify_reads. now rewrite List.filter_app. Qed.

Hint Rewrite settings_reads_app notify_reads_app : events.

(** Log records are no requests, reads or calls. *)
Lemma logs_only (l : list event) :
  forallb is_log l = true ->
  http_requests l = [] /\ settings_reads l = [] /\
  notify_reads l = [] /\ notifier_calls l = [].
Proof.
  induction l as [|e l IH]; [now repeat split|].
  cbn [forallb]. intros H. apply andb_prop in H as [He Hl].
  destruct (IH Hl) as (H1 & H2 & H3 & H4).
  destruct e; try discriminate. cbn. now repeat split.
Qed.

Lemma client_after_base_url (w : world) (me : manager) :
  base_url (client_after w me) = base_url me.
Proof.
  unfold client_after. destruct (is_initialized me); [reflexivity|].
  now destruct (credentials (db_get_tbank_settings w)) as [[tk pw]|].
Qed.

Lemma client_after_initialized (w : world) (me : manager) :
  is_initialized me = true -> client_after w me = me.
Proof. unfold client_after. now intros ->. Qed.

Lemma notification_of_length (w : world) (bot : option notifier) (resp : outcome pyval) :
  (List.length (notification_of w bot resp) <= 1)%nat.
Proof.
  unfold notification_of, expected_call.
  destruct (confirmed_response resp) as [r|]; [|cbn; lia].
  destruct (db_fetch_pay_notify w) as [[[|target ns]|]|e]; try (cbn; lia).
  destruct (py_ne_zero target && meta_readable r); [|cbn; lia].
  destruct bot; [|cbn; lia].
  destruct (get_admin_keyboard w); cbn; lia.
Qed.

(** The run of [check_payment], summed up. *)
Lemma check_payment_summary (payment_id : pyval) (bot : option notifier)
    (w : world) (s : state) :
  let run := check_payment payment_id bot w s in
  let P := [("PaymentId", payment_id)] in
  let me := client_after w (self s) in
  let url := base_url (self s) +++ "GetState" in
  let body := request_body me P in
  let resp := http_post_json w url body in
  (is_initialized (self s) = false /\
   credentials (db_get_tbank_settings w) = None /\
   exists msg,
     run = Step (Returns false) (State (self s) (heap s ++ [P]))
             [EvGetSettings; EvLog ERROR msg;
              EvLog ERROR ("Error checking TBank payment: "
                           +++ "'NoneType' object has no attribute 'get'")])
  \/
  ((is_initialized (self s) = true \/ credentials (db_get_tbank_settings w) <> None) /\
   result run = Returns (check_of_response w resp) /\
   final run = posted_state (List.length (heap s)) (State me (heap s ++ [P])) P /\
   http_requests (emitted run) = [(url, body)] /\
   settings_reads (emitted run)
     = (if is_initialized (self s) then [] else [EvGetSettings]) /\
   notify_reads (emitted run) = target_reads resp /\
   notifier_calls (emitted run) = notification_of w bot resp).
Proof.
  intros run P me url body resp.
  destruct (post_ways "GetState" (List.length (heap s)) w
              (State (self s) (heap s ++ [P])) P)
    as [(msg & Hi & Hc & Hrun) | (pre & Hor & Hs & Hh & Hn & Hf & Hrun)].
  { cbn [heap]. now apply list_lookup_middle. }
  - left. cbn [self] in Hi. split; [exact Hi|]. split; [exact Hc|]. exists msg.
    subst run. unfold check_payment, check_payment_try, try_except.
    change (new_dict _) with (new_dict P).
    rewrite (bind_returns _ _ w s (List.length (heap s))
               (State (self s) (heap s ++ [P])) []) by reflexivity.
    rewrite after_nil.
    rewrite (bind_returns _ _ _ _ _ _ _ Hrun).
    crunch_check. crunch_check. reflexivity.
  - right. cbn [self heap] in Hor, Hs, Hrun. split; [exact Hor|].
    destruct (check_payment_after_request payment_id bot w s pre _ Hrun)
      as (tail & Erun & T1 & T2 & T3 & T4).
    cbn [self] in Erun, T3, T4. rewrite client_after_base_url in Erun, T3, T4.
    fold run in Erun. fold me in Erun, T3, T4. fold P in Erun, T3, T4.
    fold url in Erun, T3, T4. fold body in Erun, T3, T4.
    fold resp in Erun, T3, T4.
    rewrite Erun. cbn [result final emitted].
    change (pre ++ EvHttpPost url body :: tail)
      with (pre ++ [EvHttpPost url body] ++ tail).
    autorewrite with events. rewrite Hs, Hh, Hn, Hf, T1, T2, T3, T4.
    cbn [http_requests settings_reads notify_reads notifier_calls flat_map
         List.filter app].
    rewrite !app_nil_r. now repeat split.
Qed.

(** The run of [create_payment], summed up. *)
Lemma create_payment_summary (amount : spec_float) (description : string)
    (user_email user_id tariff_name username : pyval) (w : world) (s : state) :
  let run := create_payment amount description user_email user_id tariff_name
                            username w s in
  match float_trunc (float_mul amount (float_of_int 100)) with
  | None => exists msg, run = Step (Returns (VNone, VNone)) s [EvLog ERROR msg]
  | Some z =>
      let P := init_payload (uuid4 w) z description user_id tariff_name username in
      let me := client_after w (self s) in
      let url := base_url (self s) +++ "Init" in
      let body := request_body me P in
      (is_initialized (self s) = false /\
       credentials (db_get_tbank_settings w) = None /\
       exists msg,
         run = Step (Returns (VNone, VNone)) (State (self s) (heap s ++ [P]))
                 [EvGetSettings; EvLog ERROR msg])
      \/
      ((is_initialized (self s) = true \/
        credentials (db_get_tbank_settings w) <> None) /\
       result run = Returns (payment_of_response (http_post_json w url body)) /\
       final run = posted_state (List.length (heap s)) (State me (heap s ++ [P])) P /\
       http_requests (emitted run) = [(url, body)] /\
       settings_reads (emitted run)
         = (if is_initialized (self s) then [] else [EvGetSettings]) /\
       notify_reads (emitted run) = [] /\
       notifier_calls (emitted run) = [])
  end.
Proof.
  intros run.
  destruct (float_trunc (float_mul amount (float_of_int 100))) as [z|] eqn:Ht.
  - intros P me url body.
    destruct (post_ways "Init" (List.length (heap s)) w
                (State (self s) (heap s ++ [P])) P)
      as [(msg & Hi & Hc & Hrun) | (pre & Hor & Hs & Hh & Hn & Hf & Hrun)].
    { cbn [heap]. now apply list_lookup_middle. }
    + left. cbn [self] in Hi. split; [exact Hi|]. split; [exact Hc|]. exists msg.
      subst run. unfold create_payment, create_payment_try, try_except.
      rewrite (bind_returns _ _ w s (uuid4 w) s []) by reflexivity.
      rewrite after_nil. unfold py_int. rewrite Ht.
      rewrite (bind_returns _ _ w s z s []) by reflexivity.
      rewrite after_nil.
      change (new_dict _) with (new_dict P).
      rewrite (bind_returns _ _ w s (List.length (heap s))
                 (State (self s) (heap s ++ [P])) []) by reflexivity.
      rewrite after_nil.
      rewrite (bind_returns _ _ _ _ _ _ _ Hrun).
      crunch. crunch. reflexivity.
    + right. cbn [self heap] in Hor, Hs, Hrun. split; [exact Hor|].
      destruct (create_payment_after_request amount description user_email user_id
                  tariff_name username w s z pre _ Ht Hrun) as (tail & Erun & Hlog).
      destruct (logs_only tail Hlog) as (T1 & T2 & T3 & T4).
      cbn [self] in Erun. rewrite client_after_base_url in Erun.
      fold run in Erun. fold P in Erun. fold me in Erun.
      fold url in Erun. fold body in Erun.
      rewrite Erun. cbn [result final emitted].
      change (pre ++ EvHttpPost url body :: tail)
        with (pre ++ [EvHttpPost url body] ++ tail).
      autorewrite with events. rewrite Hs, Hh, Hn, Hf, T1, T2, T3, T4.
      cbn [http_requests settings_reads notify_reads notifier_calls flat_map
           List.filter app].
      rewrite !app_nil_r. now repeat split.
  - subst run. unfold create_payment, create_payment_try, try_except.
    rewrite (bind_returns _ _ w s (uuid4 w) s []) by reflexivity.
    rewrite after_nil. unfold py_int. rewrite Ht.
    rewrite (bind_raises _ _ w s _ s []) by reflexivity.
    crunch. eexists. reflexivity.
Qed.

(* ===================================================================== *)
(** * Further properties of [init_tbank] *)
(* ===================================================================== *)

(** X1.  [init_tbank] raises nothing, whatever the settings store does.  It
    returns [True] exactly when the store returns a row whose columns 2 and
    3 are both present and true, and [False] in every other case (no row,
    a short row, an empty field, an exception of the store).  In both
    cases it reads the settings once, sends no request and calls no
    notifier. *)
Theorem init_tbank_true_iff_credentials (w : world) (s : state) :
  let run := init_tbank w s in
  (result run = Returns true <->
   exists r tk pw,
     db_get_tbank_settings w = Returns (Some r) /\
     r !! 2%nat = Some tk /\ r !! 3%nat = Some pw /\
     truthy tk = true /\ truthy pw = true) /\
  (result run = Returns true \/ result run = Returns false) /\
  settings_reads (emitted run) = [EvGetSettings] /\
  http_requests (emitted run) = [] /\
  notifier_calls (emitted run) = [].
Proof.
  intros run. subst run.
  destruct (credentials (db_get_tbank_settings w)) as [[tk pw]|] eqn:Hc.
  - rewrite (init_tbank_ok w s tk pw Hc). cbn [result emitted].
    split; [|now repeat split; try left].
    split; [intros _|reflexivity].
    apply credentials_Some in Hc as (r & Hr). now exists r, tk, pw.
  - destruct (init_tbank_ko w s Hc) as [msg ->]. cbn [result emitted].
    split; [|now repeat split; try right].
    split; [discriminate|].
    intros (r & tk & pw & Hr).
    assert (Hsome : credentials (db_get_tbank_settings w) = Some (tk, pw))
      by (apply credentials_Some; now exists r).
    congruence.
Qed.

(** X2.  When the settings row holds a terminal key (column 2) and a
    password (column 3) that are both true, [init_tbank] returns [True] and
    leaves the client initialized with exactly these two values, whatever
    it had cached before; the base URL and the object store are as they
    were. *)
Theorem init_tbank_caches_row_columns (w : world) (s : state) (r : row)
    (tk pw : pyval) :
  db_get_tbank_settings w = Returns (Some r) ->
  r !! 2%nat = Some tk ->
  r !! 3%nat = Some pw ->
  truthy tk = true ->
  truthy pw = true ->
  result (init_tbank w s) = Returns true /\
  final (init_tbank w s) = State (Manager true (base_url (self s)) tk pw) (heap s).
Proof.
  intros Hdb H2 H3 T2 T3.
  assert (Hc : credentials (db_get_tbank_settings w) = Some (tk, pw))
    by (apply credentials_Some; now exists r).
  rewrite (init_tbank_ok w s tk pw Hc). now split.
Qed.

(** X3.  [init_tbank] is idempotent: run again, with the same settings in
    the store, in the state that a first run left, it returns the same
    boolean and leaves that state as it is. *)
Theorem init_tbank_twice (w : world) (s : state) :
  result (init_tbank w (final (init_tbank w s))) = result (init_tbank w s) /\
  final (init_tbank w (final (init_tbank w s))) = final (init_tbank w s).
Proof.
  destruct (credentials (db_get_tbank_settings w)) as [[tk pw]|] eqn:Hc.
  - rewrite (init_tbank_ok w s tk pw Hc). cbn [final result].
    rewrite (init_tbank_ok w (initialized_with tk pw s) tk pw Hc).
    now split.
  - destruct (init_tbank_ko w s Hc) as [msg Hrun].
    rewrite Hrun. cbn [final result]. rewrite Hrun. now split.
Qed.

(* ===================================================================== *)
(** * Further properties of [_post] *)
(* ===================================================================== *)

Lemma post_outcome_settings (endpoint : string) (a : addr) (w : world) (s : state)
    (P : dict) :
  settings_reads (emitted (post_outcome endpoint a w s P)) = [].
Proof.
  unfold post_outcome.
  destruct (http_post_json w _ _) as [[| | | | | |r]|e]; try reflexivity.
  cbn [emitted settings_reads List.filter]. destruct (truthy _); reflexivity.
Qed.

(** X4.  When the client is not initialized and [init_tbank] fails, [_post]
    returns [None] and changes nothing: the client and every dictionary of
    the store, the caller's payload included, are as before (no
    [TerminalKey], no [Token] is added), and no request is sent. *)
Theorem post_unconfigured_leaves_payload (endpoint : string) (data : addr)
    (w : world) (s : state) :
  is_initialized (self s) = false ->
  result (init_tbank w s) = Returns false ->
  result (_post endpoint data w s) = Returns VNone /\
  final (_post endpoint data w s) = s /\
  http_requests (emitted (_post endpoint data w s)) = [].
Proof.
  intros Hinit Hfail. apply init_false_credentials in Hfail.
  destruct (post_init_ko endpoint data w s Hinit Hfail) as [msg ->].
  now repeat split.
Qed.

(** X5.  Lazy initialization.  On a client that is not initialized, when
    the settings row holds a true terminal key and a true password, [_post]
    reads the settings once, caches the two values, and sends its one
    request with them: the [TerminalKey] of the body is the key of the row
    and the token is computed with the password of the row.  The client is
    initialized afterwards. *)
Theorem post_initializes_lazily (endpoint : string) (data : addr) (w : world)
    (s : state) (r : row) (tk pw : pyval) (P : dict) :
  is_initialized (self s) = false ->
  db_get_tbank_settings w = Returns (Some r) ->
  r !! 2%nat = Some tk ->
  r !! 3%nat = Some pw ->
  truthy tk = true ->
  truthy pw = true ->
  heap s !! data = Some P ->
  let run := _post endpoint data w s in
  let me := Manager true (base_url (self s)) tk pw in
  self (final run) = me /\
  settings_reads (emitted run) = [EvGetSettings] /\
  http_requests (emitted run)
    = [(base_url (self s) +++ endpoint,
        dict_set (dict_set P "TerminalKey" tk) "Token"
                 (VStr (Sha256.hexdigest
                          (token_str (sorted (dict_set (dict_set P "TerminalKey" tk)
                                                       "Password" pw))))))].
Proof.
  intros Hinit Hdb H2 H3 T2 T3 Hdata run me.
  assert (Hc : credentials (db_get_tbank_settings w) = Some (tk, pw))
    by (apply credentials_Some; now exists r).
  subst run. rewrite (post_init_ok endpoint data w s tk pw P Hinit Hc Hdata).
  pose proof (post_outcome_final endpoint data w (initialized_with tk pw s) P) as Hf.
  pose proof (post_outcome_requests endpoint data w (initialized_with tk pw s) P) as Hr.
  pose proof (post_outcome_settings endpoint data w (initialized_with tk pw s) P) as Hs.
  destruct (post_outcome endpoint data w (initialized_with tk pw s) P)
    as [res s1 evs].
  cbn [after final emitted] in *. subst s1.
  change (?a :: ?b :: evs) with ([a; b] ++ evs).
  autorewrite with events. rewrite Hr, Hs. now repeat split.
Qed.

(** X6.  An initialized client does not go back to the settings store:
    [_post] reads no settings and leaves the cached credentials as they
    are, whatever the store holds by then. *)
Theorem post_initialized_skips_store (endpoint : string) (data : addr)
    (w : world) (s : state) (P : dict) :
  is_initialized (self s) = true ->
  heap s !! data = Some P ->
  settings_reads (emitted (_post endpoint data w s)) = [] /\
  self (final (_post endpoint data w s)) = self s.
Proof.
  intros Hinit Hdata.
  rewrite (post_ready endpoint data w s P Hinit Hdata).
  rewrite post_outcome_settings, post_outcome_final. now split.
Qed.

(** X7.  [_post] has no handler of its own.  On an initialized client, an
    exception of the transport (connection, decoding of the answer) leaves
    [_post] as it is; and an answer that is valid JSON but not an object
    makes [result.get] raise [AttributeError]. *)
Theorem post_propagates_errors (endpoint : string) (data : addr)
    (w : world) (s : state) (P : dict) :
  is_initialized (self s) = true ->
  heap s !! data = Some P ->
  let run := _post endpoint data w s in
  let resp := http_post_json w (base_url (self s) +++ endpoint)
                             (request_body (self s) P) in
  (forall e, resp = Raises e -> result run = Raises e) /\
  (forall v, resp = Returns v -> (forall r, v <> VDict r) ->
     result run
     = Raises (Exn "AttributeError"
                 ("'" +++ type_name v +++ "' object has no attribute 'get'"))).
Proof.
  intros Hinit Hdata run resp. subst run resp.
  rewrite (post_ready endpoint data w s P Hinit Hdata). unfold post_outcome.
  split.
  - intros e ->. reflexivity.
  - intros v -> Hv. destruct v; try reflexivity. now elim (Hv d).
Qed.

(** X8.  A refusal of the processor is not an error for [_post]: when the
    answer is an object, [_post] returns it as it is, whether its
    [Success] is true or not; it writes an error record, after the
    request, exactly when [Success] is missing or false. *)
Theorem post_returns_refusal (endpoint : string) (data : addr)
    (w : world) (s : state) (P r : dict) :
  is_initialized (self s) = true ->
  heap s !! data = Some P ->
  let url := base_url (self s) +++ endpoint in
  let body := request_body (self s) P in
  http_post_json w url body = Returns (VDict r) ->
  result (_post endpoint data w s) = Returns (VDict r) /\
  emitted (_post endpoint data w s)
  = EvHttpPost url body ::
    (if truthy (field r "Success") then []
     else [EvLog ERROR ("TBank API error at " +++ endpoint +++ ": "
                        +++ py_str (VDict r))]).
Proof.
  intros Hinit Hdata url body Hresp. subst url body.
  rewrite (post_ready endpoint data w s P Hinit Hdata). unfold post_outcome.
  rewrite Hresp. now split.
Qed.

(** X9.  What [_post] does to the object store of an initialized client:
    it allocates exactly one dictionary, the copy made for signing, which
    holds the cached password; and it leaves every dictionary other than
    the caller's as it was.  This holds whatever the transport does. *)
Theorem post_frame (endpoint : string) (data : addr) (w : world) (s : state)
    (P : dict) :
  is_initialized (self s) = true ->
  heap s !! data = Some P ->
  let h' := heap (final (_post endpoint data w s)) in
  List.length h' = S (List.length (heap s)) /\
  h' !! List.length (heap s) = Some (signed_copy (self s) P) /\
  dict_get (signed_copy (self s) P) "Password" = Some (password (self s)) /\
  (forall a, a <> data -> (a < List.length (heap s))%nat -> h' !! a = heap s !! a).
Proof.
  intros Hinit Hdata h'. subst h'.
  rewrite (post_ready endpoint data w s P Hinit Hdata), post_outcome_final.
  unfold posted_state. cbn [heap].
  split; [|split; [|split]].
  - rewrite length_app, length_insert. cbn [List.length]. lia.
  - rewrite lookup_app_r by (rewrite length_insert; lia).
    rewrite length_insert, Nat.sub_diag. reflexivity.
  - unfold signed_copy. apply dict_get_set_same.
  - intros a Ha Hlt.
    rewrite lookup_app_l by (rewrite length_insert; exact Hlt).
    apply list_lookup_insert_ne. congruence.
Qed.

(** X10.  A dictionary that [_post] has signed keeps its [Token].  When
    the same dictionary is given to [_post] again, the old token is one of
    the values that are hashed: the second token is the digest of a string
    in which the first token occurs. *)
Theorem post_reused_payload_signs_old_token (endpoint : string) (data : addr)
    (w w' : world) (s : state) (P : dict) :
  is_initialized (self s) = true ->
  heap s !! data = Some P ->
  let first := _post endpoint data w s in
  let second := _post endpoint data w' (final first) in
  exists body hashed pre post,
    http_requests (emitted second) = [(base_url (self s) +++ endpoint, body)] /\
    dict_get body "Token" = Some (VStr (Sha256.hexdigest hashed)) /\
    hashed = pre +++ signature (self s) P +++ post.
Proof.
  intros Hinit Hdata first second. subst second first.
  rewrite (post_ready endpoint data w s P Hinit Hdata), post_outcome_final.
  pose proof (lookup_lt_Some _ _ _ Hdata) as Hlt.
  set (P1 := request_body (self s) P).
  assert (H1 : heap (posted_state data s P) !! data = Some P1).
  { unfold posted_state. cbn [heap].
    rewrite lookup_app_l by (rewrite length_insert; exact Hlt).
    now apply list_lookup_insert_eq. }
  rewrite (post_ready endpoint data w' (posted_state data s P) P1 Hinit H1).
  rewrite post_outcome_requests. cbn [posted_state self].
  assert (Hin : In ("Token", VStr (signature (self s) P))
                   (sorted (signed_copy (self s) P1))).
  { apply list_elem_of_In. rewrite sorted_perm. apply list_elem_of_In.
    apply dict_get_In. unfold signed_copy.
    rewrite !dict_get_set_other by discriminate.
    unfold P1, request_body. apply dict_get_set_same. }
  destruct (token_str_contains _ _ _ Hin) as (pre & post & Hseg).
  exists (request_body (self s) P1), (signed_string (self s) P1), pre, post.
  split; [reflexivity|]. split; [|exact Hseg].
  unfold request_body at 1. apply dict_get_set_same.
Qed.

(* ===================================================================== *)
(** * Further properties of the signature *)
(* ===================================================================== *)

Lemma dict_set_set (d : dict) (k : string) (v v' : pyval) :
  dict_set (dict_set d k v) k v' = dict_set d k v'.
Proof.
  induction d as [|[k0 v0] d IH]; cbn [dict_set].
  - now rewrite String.eqb_refl.
  - destruct (String.eqb k0 k) eqn:E; cbn [dict_set]; rewrite E; [reflexivity|].
    now rewrite IH.
Qed.

Lemma without_dict_set_same (d : dict) (k : string) (v : pyval) :
  without k (dict_set d k v) = without k d.
Proof.
  unfold without. induction d as [|[k0 v0] d IH]; cbn [dict_set List.filter fst].
  - now rewrite String.eqb_refl.
  - destruct (String.eqb k0 k) eqn:E; cbn [List.filter fst]; rewrite E; cbn [negb];
      [reflexivity|now rewrite IH].
Qed.

Lemma without_dict_set_other (d : dict) (k k' : string) (v : pyval) :
  k <> k' -> without k (dict_set d k' v) = dict_set (without k d) k' v.
Proof.
  intros Hne. unfold without.
  induction d as [|[k0 v0] d IH]; cbn [dict_set List.filter fst].
  - destruct (String.eqb k' k) eqn:E; [|reflexivity].
    apply String.eqb_eq in E. congruence.
  - destruct (String.eqb k0 k') eqn:E'; cbn [List.filter fst].
    + apply String.eqb_eq in E'. subst k0.
      destruct (String.eqb k' k) eqn:E; [apply String.eqb_eq in E; congruence|].
      cbn [negb dict_set]. now rewrite String.eqb_refl.
    + destruct (String.eqb k0 k) eqn:E; cbn [negb dict_set].
      * exact IH.
      * rewrite E'. now rewrite IH.
Qed.

(** A [Password] that the caller's dictionary holds does not reach the
    string that is hashed. *)
Lemma signature_callers_password (me : manager) (P : dict) (v : pyval) :
  dict_wf P -> signature me (dict_set P "Password" v) = signature me P.
Proof.
  intros Hwf. unfold signature, signed_string. do 2 f_equal.
  assert (Hwf' : dict_wf (dict_set P "Password" v)) by (now apply dict_set_wf).
  apply sorted_unique; [now apply signed_copy_wf|].
  unfold signed_copy.
  rewrite (dict_set_without
             (dict_set (dict_set P "Password" v) "TerminalKey" (terminal_key me))
             "Password")
    by (repeat apply dict_set_wf; assumption).
  rewrite (dict_set_without (dict_set P "TerminalKey" (terminal_key me)) "Password")
    by (repeat apply dict_set_wf; assumption).
  rewrite !(without_dict_set_other _ "Password" "TerminalKey") by discriminate.
  rewrite without_dict_set_same. reflexivity.
Qed.

(** X11.  The token is always computed with the cached password.  If the
    caller sets a [Password] in the dictionary, the copy's [Password] is
    overwritten before hashing, so the token is the one that the dictionary
    had before the caller set the field; the request body, however,
    carries the caller's [Password] as given. *)
Theorem token_ignores_callers_password (endpoint : string) (w : world)
    (me : manager) (h1 h2 : list dict) (a1 a2 : addr) (P : dict) (v : pyval) :
  is_initialized me = true ->
  dict_wf P ->
  h1 !! a1 = Some P ->
  h2 !! a2 = Some (dict_set P "Password" v) ->
  exists body1 body2 token,
    http_requests (emitted (_post endpoint a1 w (State me h1)))
      = [(base_url me +++ endpoint, body1)] /\
    http_requests (emitted (_post endpoint a2 w (State me h2)))
      = [(base_url me +++ endpoint, body2)] /\
    dict_get body1 "Token" = Some (VStr token) /\
    dict_get body2 "Token" = Some (VStr token) /\
    dict_get body2 "Password" = Some v.
Proof.
  intros Hinit Hwf H1 H2.
  exists (request_body me P), (request_body me (dict_set P "Password" v)),
         (signature me P).
  rewrite (post_ready endpoint a1 w (State me h1) P Hinit H1).
  rewrite (post_ready endpoint a2 w (State me h2) _ Hinit H2).
  rewrite !post_outcome_requests. cbn [self].
  split; [reflexivity|]. split; [reflexivity|].
  split; [|split].
  - unfold request_body. apply dict_get_set_same.
  - rewrite <- (signature_callers_password me P v Hwf).
    unfold request_body. apply dict_get_set_same.
  - rewrite request_body_get by discriminate. apply dict_get_set_same.
Qed.

(** X12.  A [TerminalKey] that the caller's dictionary holds is
    overwritten with the cached one before anything else: the request is
    the same as for the dictionary with any other value under
    [TerminalKey], and the body carries the cached key. *)
Theorem post_overwrites_callers_terminal_key (endpoint : string) (w : world)
    (me : manager) (h1 h2 : list dict) (a1 a2 : addr) (P : dict) (v1 v2 : pyval) :
  is_initialized me = true ->
  h1 !! a1 = Some (dict_set P "TerminalKey" v1) ->
  h2 !! a2 = Some (dict_set P "TerminalKey" v2) ->
  exists body,
    http_requests (emitted (_post endpoint a1 w (State me h1)))
      = [(base_url me +++ endpoint, body)] /\
    http_requests (emitted (_post endpoint a2 w (State me h2)))
      = [(base_url me +++ endpoint, body)] /\
    dict_get body "TerminalKey" = Some (terminal_key me).
Proof.
  intros Hinit H1 H2.
  exists (request_body me (dict_set P "TerminalKey" v1)).
  rewrite (post_ready endpoint a1 w (State me h1) _ Hinit H1).
  rewrite (post_ready endpoint a2 w (State me h2) _ Hinit H2).
  rewrite !post_outcome_requests. cbn [self].
  split; [reflexivity|]. split.
  - unfold request_body, signature, signed_string, signed_copy.
    now rewrite !dict_set_set.
  - unfold request_body. rewrite dict_get_set_other by discriminate.
    apply dict_get_set_same.
Qed.

Lemma same_strings_dict_set (P1 P2 : dict) (k : string) (v : pyval) :
  same_strings P1 P2 -> same_strings (dict_set P1 k v) (dict_set P2 k v).
Proof.
  unfold same_strings.
  induction 1 as [|[k1 v1] [k2 v2] l1 l2 [Hk Hv] Hl IH]; cbn [dict_set].
  - repeat constructor.
  - cbn [fst snd] in Hk, Hv. subst k2.
    destruct (String.eqb k1 k).
    + constructor; [now split|exact Hl].
    + constructor; [now split|exact IH].
Qed.

Lemma same_strings_insert (x y : item) (l1 l2 : list item) :
  fst x = fst y -> py_str (snd x) = py_str (snd y) ->
  same_strings l1 l2 -> same_strings (insert_item x l1) (insert_item y l2).
Proof.
  unfold same_strings. intros Hk Hv.
  induction 1 as [|a b l1 l2 [Hab Hsab] Hl IH]; cbn [insert_item].
  - repeat constructor; assumption.
  - unfold item_ltb. rewrite Hk, Hab.
    destruct (String.ltb (fst b) (fst y)).
    + constructor; [now split|exact IH].
    + constructor; [now split|]. constructor; [now split|exact Hl].
Qed.

Lemma same_strings_sorted (l1 l2 : list item) :
  same_strings l1 l2 -> same_strings (sorted l1) (sorted l2).
Proof.
  induction 1 as [|a b l1 l2 [Hab Hsab] Hl IH].
  - constructor.
  - rewrite !sorted_cons. now apply same_strings_insert.
Qed.

Lemma same_strings_token_str (l1 l2 : list item) :
  same_strings l1 l2 -> token_str l1 = token_str l2.
Proof.
  unfold token_str.
  induction 1 as [|[k1 v1] [k2 v2] l1 l2 [Hk Hv] _ IH]; [reflexivity|].
  cbn [map]. rewrite !concat_cons. cbn [snd] in Hv. now rewrite Hv, IH.
Qed.

(** X13.  The token depends on the values of the payload only through
    their [str]: two dictionaries with the same keys in the same order
    whose values have equal strings (the integer [1000] and the string
    [1000], say) are signed with the same token. *)
Theorem token_depends_on_value_strings (endpoint : string) (w : world)
    (me : manager) (h1 h2 : list dict) (a1 a2 : addr) (P1 P2 : dict) :
  is_initialized me = true ->
  h1 !! a1 = Some P1 ->
  h2 !! a2 = Some P2 ->
  same_strings P1 P2 ->
  exists body1 body2 token,
    http_requests (emitted (_post endpoint a1 w (State me h1)))
      = [(base_url me +++ endpoint, body1)] /\
    http_requests (emitted (_post endpoint a2 w (State me h2)))
      = [(base_url me +++ endpoint, body2)] /\
    dict_get body1 "Token" = Some (VStr token) /\
    dict_get body2 "Token" = Some (VStr token).
Proof.
  intros Hinit H1 H2 Hsame.
  exists (request_body me P1), (request_body me P2), (signature me P1).
  rewrite (post_ready endpoint a1 w (State me h1) P1 Hinit H1).
  rewrite (post_ready endpoint a2 w (State me h2) P2 Hinit H2).
  rewrite !post_outcome_requests. cbn [self].
  split; [reflexivity|]. split; [reflexivity|]. split.
  - unfold request_body. apply dict_get_set_same.
  - assert (Hsig : signature me P1 = signature me P2).
    { unfold signature, signed_string, signed_copy. f_equal.
      apply same_strings_token_str, same_strings_sorted.
      now do 2 apply same_strings_dict_set. }
    rewrite Hsig. unfold request_body. apply dict_get_set_same.
Qed.

(** X14.  The values are hashed without separators, so the token does not
    tell where one value ends and the next begins: moving a piece of text
    from the end of [Description] to the start of [OrderId], which follows
    it in key order, leaves the token as it is. *)
Theorem token_has_no_separators (endpoint : string) (w : world) (me : manager)
    (h1 h2 : list dict) (a1 a2 : addr) (x y z : string) :
  is_initialized me = true ->
  h1 !! a1 = Some [("Description", VStr (x +++ y)); ("OrderId", VStr z)] ->
  h2 !! a2 = Some [("Description", VStr x); ("OrderId", VStr (y +++ z))] ->
  exists body1 body2 token,
    http_requests (emitted (_post endpoint a1 w (State me h1)))
      = [(base_url me +++ endpoint, body1)] /\
    http_requests (emitted (_post endpoint a2 w (State me h2)))
      = [(base_url me +++ endpoint, body2)] /\
    dict_get body1 "Token" = Some (VStr token) /\
    dict_get body2 "Token" = Some (VStr token) /\
    token = Sha256.hexdigest
              (x +++ y +++ z +++ py_str (password me) +++ py_str (terminal_key me)).
Proof.
  intros Hinit H1 H2.
  rewrite (post_ready endpoint a1 w (State me h1) _ Hinit H1).
  rewrite (post_ready endpoint a2 w (State me h2) _ Hinit H2).
  rewrite !post_outcome_requests. cbn [self].
  exists (request_body me [("Description", VStr (x +++ y)); ("OrderId", VStr z)]),
         (request_body me [("Description", VStr x); ("OrderId", VStr (y +++ z))]),
         (signature me [("Description", VStr (x +++ y)); ("OrderId", VStr z)]).
  split; [reflexivity|]. split; [reflexivity|].
  assert (E1 : signed_string me [("Description", VStr (x +++ y)); ("OrderId", VStr z)]
               = (x +++ y) +++ z +++ py_str (password me) +++ py_str (terminal_key me))
    by reflexivity.
  assert (E2 : signed_string me [("Description", VStr x); ("OrderId", VStr (y +++ z))]
               = x +++ (y +++ z) +++ py_str (password me) +++ py_str (terminal_key me))
    by reflexivity.
  rewrite append_assoc in E1, E2.
  split; [|split].
  - unfold request_body. apply dict_get_set_same.
  - unfold request_body. rewrite dict_get_set_same. unfold signature.
    now rewrite E1, E2.
  - unfold signature. now rewrite E1.
Qed.

(** X26.  Every value of the payload is signed: the string of each value
    that the caller's dictionary holds under a key other than
    [TerminalKey] and [Password] occurs in the string whose digest is the
    token, and so does the string of the cached terminal key.  Nested
    values such as [DATA] are no exception; they enter as their [str]. *)
Theorem token_covers_every_field (endpoint : string) (data : addr) (w : world)
    (s : state) (P : dict) (k : string) (v : pyval) :
  is_initialized (self s) = true ->
  heap s !! data = Some P ->
  dict_get P k = Some v ->
  k <> "TerminalKey" ->
  k <> "Password" ->
  exists body hashed pre post pre' post',
    http_requests (emitted (_post endpoint data w s))
      = [(base_url (self s) +++ endpoint, body)] /\
    dict_get body "Token" = Some (VStr (Sha256.hexdigest hashed)) /\
    hashed = pre +++ py_str v +++ post /\
    hashed = pre' +++ py_str (terminal_key (self s)) +++ post'.
Proof.
  intros Hinit Hdata Hk Hk1 Hk2.
  assert (Hv : In (k, v) (sorted (signed_copy (self s) P))).
  { apply list_elem_of_In. rewrite sorted_perm. apply list_elem_of_In.
    apply dict_get_In. unfold signed_copy.
    rewrite !dict_get_set_other by congruence. exact Hk. }
  assert (Htk : In ("TerminalKey", terminal_key (self s))
                   (sorted (signed_copy (self s) P))).
  { apply list_elem_of_In. rewrite sorted_perm. apply list_elem_of_In.
    apply dict_get_In. unfold signed_copy.
    rewrite dict_get_set_other by discriminate. apply dict_get_set_same. }
  destruct (token_str_contains _ _ _ Hv) as (pre & post & Hseg).
  destruct (token_str_contains _ _ _ Htk) as (pre' & post' & Hseg').
  exists (request_body (self s) P), (signed_string (self s) P), pre, post, pre', post'.
  rewrite (post_ready endpoint data w s P Hinit Hdata), post_outcome_requests.
  split; [reflexivity|]. split; [|split; [exact Hseg|exact Hseg']].
  unfold request_body. apply dict_get_set_same.
Qed.

(* ===================================================================== *)
(** * Further properties of [create_payment] *)
(* ===================================================================== *)

(** X15.  The request of [create_payment].  When the product of the amount
    and [100] has an integer value [z] and the client is or becomes
    initialized, exactly one request is sent, to the base URL followed by
    [Init].  Its body holds, in this order, the fresh order identifier, the
    amount [z], the description, [str(user_id)] as customer key, the
    metadata (with [unknown] and [none] for a user name and a tariff name
    that are missing or empty), the three fixed URLs, the terminal key and
    the token; [user_email] is not sent.  The token is the digest of the
    strings of the values in the order of the keys: [Amount],
    [CustomerKey], [DATA], [Description], [FailURL], [NotificationURL],
    [OrderId], [Password], [SuccessURL], [TerminalKey]. *)
Theorem create_payment_request_body (amount : spec_float) (description : string)
    (user_email user_id tariff_name username : pyval) (w : world) (s : state)
    (z : Z) :
  float_trunc (float_mul amount (float_of_int 100)) = Some z ->
  is_initialized (self s) = true \/ credentials (db_get_tbank_settings w) <> None ->
  let me := client_after w (self s) in
  let meta := VDict [ ("telegram_id", user_id);
                      ("username", py_or username (VStr "unknown"));
                      ("tariff_name", py_or tariff_name (VStr "none")) ] in
  let hashed :=
    str_of_int z +++ py_str user_id +++ py_str meta +++ description +++
    "https://t.me/BURYAT_VPN_BOT" +++ "https://your-server.com/tbank/callback" +++
    uuid4 w +++ py_str (password me) +++ "https://t.me/BURYAT_VPN_BOT" +++
    py_str (terminal_key me) in
  http_requests
    (emitted (create_payment amount description user_email user_id tariff_name
                             username w s))
  = [(base_url (self s) +++ "Init",
      [ ("OrderId", VStr (uuid4 w));
        ("Amount", VInt z);
        ("Description", VStr description);
        ("CustomerKey", VStr (py_str user_id));
        ("DATA", meta);
        ("SuccessURL", VStr "https://t.me/BURYAT_VPN_BOT");
        ("FailURL", VStr "https://t.me/BURYAT_VPN_BOT");
        ("NotificationURL", VStr "https://your-server.com/tbank/callback");
        ("TerminalKey", terminal_key me);
        ("Token", VStr (Sha256.hexdigest hashed)) ])].
Proof.
  intros Ht Hor me meta hashed.
  pose proof (create_payment_summary amount description user_email user_id
                tariff_name username w s) as H.
  cbv zeta in H. rewrite Ht in H.
  destruct H as [(Hi & Hc & _) | (_ & _ & _ & Hreq & _)];
    [destruct Hor; congruence|].
  rewrite Hreq. fold me.
  assert (E : signed_string me
                (init_payload (uuid4 w) z description user_id tariff_name username)
              = hashed) by reflexivity.
  unfold request_body, signature. rewrite E. reflexivity.
Qed.

(** X16.  An amount whose product with [100] is infinite or not a number
    (which includes finite amounts that overflow) stops [create_payment]
    before anything else happens: [int] raises, the handler writes one
    error record and returns [(None, None)]; the settings are not read, no
    request is sent, and the client and the store are as before. *)
Theorem create_payment_nonfinite_amount (amount : spec_float) (description : string)
    (user_email user_id tariff_name username : pyval) (w : world) (s : state) :
  float_trunc (float_mul amount (float_of_int 100)) = None ->
  let run := create_payment amount description user_email user_id tariff_name
                            username w s in
  result run = Returns (VNone, VNone) /\
  final run = s /\
  (exists msg, emitted run = [EvLog ERROR msg]) /\
  http_requests (emitted run) = [] /\
  settings_reads (emitted run) = [].
Proof.
  intros Ht run.
  pose proof (create_payment_summary amount description user_email user_id
                tariff_name username w s) as H.
  cbv zeta in H. rewrite Ht in H. destruct H as [msg H].
  subst run. rewrite H. cbn [result final emitted].
  split; [reflexivity|]. split; [reflexivity|]. split; [now exists msg|].
  now split.
Qed.

(** X17.  [create_payment] does not check that the accepted answer is
    complete.  When the answer to the request has a true [Success] but no
    [PaymentURL], the result is the pair of the [PaymentId] and [None]. *)
Theorem create_payment_partial_pair (amount : spec_float) (description : string)
    (user_email user_id tariff_name username : pyval) (w : world) (s : state)
    (url : string) (body r : dict) :
  let run := create_payment amount description user_email user_id tariff_name
                            username w s in
  In (EvHttpPost url body) (emitted run) ->
  http_post_json w url body = Returns (VDict r) ->
  truthy (field r "Success") = true ->
  dict_get r "PaymentURL" = None ->
  result run = Returns (field r "PaymentId", VNone).
Proof.
  intros run Hin Hresp Hsucc Hurl. apply In_http_requests in Hin.
  destruct (create_payment_run amount description user_email user_id tariff_name
              username w s)
    as [(_ & Hreq & _) | (z & url0 & body0 & _ & _ & Hreq & _ & Hres)];
    fold run in Hreq; rewrite Hreq in Hin; [contradiction|].
  fold run in Hres. destruct Hin as [[= <- <-]|[]].
  rewrite Hres, Hresp. unfold payment_of_response. rewrite Hsucc.
  unfold field at 2. now rewrite Hurl.
Qed.

(* ===================================================================== *)
(** * Further properties of [check_payment] *)
(* ===================================================================== *)

(** What [check_payment] does once its request was sent. *)
Lemma check_payment_answered (payment_id : pyval) (bot : option notifier)
    (w : world) (s : state) (url : string) (body : dict) :
  let run := check_payment payment_id bot w s in
  In (EvHttpPost url body) (emitted run) ->
  result run = Returns (check_of_response w (http_post_json w url body)) /\
  notify_reads (emitted run) = target_reads (http_post_json w url body) /\
  notifier_calls (emitted run) = notification_of w bot (http_post_json w url body).
Proof.
  intros run Hin. apply In_http_requests in Hin.
  destruct (check_payment_summary payment_id bot w s)
    as [(_ & _ & msg & Hrun) | (_ & Hres & _ & Hreq & _ & Hnr & Hnc)];
    fold run in Hrun || fold run in Hres, Hreq, Hnr, Hnc.
  - rewrite Hrun in Hin. contradiction.
  - rewrite Hreq in Hin. destruct Hin as [[= <- <-]|[]]. now repeat split.
Qed.

(** X18.  The request of [check_payment].  When the client is or becomes
    initialized, exactly one request is sent, to the base URL followed by
    [GetState]; its body holds the payment identifier, the terminal key and
    the token, and the token is the digest of the strings of the password,
    the payment identifier and the terminal key, in this order. *)
Theorem check_payment_request_body (payment_id : pyval) (bot : option notifier)
    (w : world) (s : state) :
  is_initialized (self s) = true \/ credentials (db_get_tbank_settings w) <> None ->
  let me := client_after w (self s) in
  http_requests (emitted (check_payment payment_id bot w s))
  = [(base_url (self s) +++ "GetState",
      [ ("PaymentId", payment_id);
        ("TerminalKey", terminal_key me);
        ("Token", VStr (Sha256.hexdigest
                          (py_str (password me) +++ py_str payment_id +++
                           py_str (terminal_key me)))) ])].
Proof.
  intros Hor me.
  destruct (check_payment_summary payment_id bot w s)
    as [(Hi & Hc & _) | (_ & _ & _ & Hreq & _)]; [destruct Hor; congruence|].
  rewrite Hreq. reflexivity.
Qed.

(** X19.  The notification of a confirmed payment.  When the answer is
    [CONFIRMED], the notification target is a row whose first column
    differs from [0], the [DATA] of the answer is a mapping or missing, a
    bot was given and the keyboard is built, the notifier is called exactly
    once: with the target as chat, the text made of the [OrderId] of the
    answer, the tariff name of its [DATA] ([N/A] when missing) and the
    current time, the parse mode [HTML] and the keyboard.  The result is
    [True] whether the notifier returns or raises. *)
Theorem check_payment_notifies_target (payment_id : pyval) (send : notifier)
    (w : world) (s : state) (url : string) (body r : dict)
    (target : pyval) (rest : row) (keyboard : pyval) :
  let run := check_payment payment_id (Some send) w s in
  In (EvHttpPost url body) (emitted run) ->
  http_post_json w url body = Returns (VDict r) ->
  dict_get r "Status" = Some (VStr "CONFIRMED") ->
  db_fetch_pay_notify w = Returns (Some (target :: rest)) ->
  py_ne_zero target = true ->
  meta_readable r = true ->
  get_admin_keyboard w = Returns keyboard ->
  result run = Returns true /\
  notifier_calls (emitted run)
  = [EvSendMessage target
       (message_text (field r "OrderId") (tariff_of r) (now_strftime w))
       "HTML" keyboard].
Proof.
  intros run Hin Hresp Hst Hns Hne Hmeta Hkb.
  destruct (check_payment_answered payment_id (Some send) w s url body Hin)
    as (Hres & _ & Hcalls).
  fold run in Hres, Hcalls.
  assert (Hc : confirmed_response (http_post_json w url body) = Some r)
    by (now apply confirmed_response_Some).
  rewrite Hres, Hcalls.
  unfold check_of_response, notification_completes, notification_of, expected_call.
  rewrite Hc, Hns. cbn [notify_enabled]. rewrite Hne, Hmeta, Hkb. now split.
Qed.

(** X20.  Without a bot (the default argument), or when building the
    keyboard raises, a confirmed payment is still reported as [True],
    provided the steps before the call complete (the notification target
    is read and the text is composed without an exception): the failure is
    caught by the inner handler and the notifier is not called. *)
Theorem check_payment_skips_failed_notification (payment_id : pyval)
    (bot : option notifier) (w : world) (s : state) (url : string) (body r : dict) :
  let run := check_payment payment_id bot w s in
  In (EvHttpPost url body) (emitted run) ->
  http_post_json w url body = Returns (VDict r) ->
  dict_get r "Status" = Some (VStr "CONFIRMED") ->
  notification_completes w r = true ->
  bot = None \/ (exists e, get_admin_keyboard w = Raises e) ->
  result run = Returns true /\ notifier_calls (emitted run) = [].
Proof.
  intros run Hin Hresp Hst Hcompl Hfail.
  destruct (check_payment_answered payment_id bot w s url body Hin)
    as (Hres & _ & Hcalls).
  fold run in Hres, Hcalls.
  assert (Hc : confirmed_response (http_post_json w url body) = Some r)
    by (now apply confirmed_response_Some).
  rewrite Hres, Hcalls. unfold check_of_response, notification_of, expected_call.
  rewrite Hc, Hcompl. split; [reflexivity|].
  destruct (db_fetch_pay_notify w) as [[[|target ns]|]|e]; try reflexivity.
  destruct (py_ne_zero target && meta_readable r); [|reflexivity].
  destruct Hfail as [->|[e ->]]; [reflexivity|]. now destruct bot.
Qed.

(** X27.  The notifier is called for nothing but a confirmed payment with
    an enabled target: whenever [check_payment] calls it, a bot was given,
    the request was answered with a mapping whose [Status] is [CONFIRMED],
    and the notification target is a row whose first column differs from
    [0]; that column is the chat of the call. *)
Theorem check_payment_notifies_only_confirmed (payment_id : pyval)
    (bot : option notifier) (w : world) (s : state) :
  let run := check_payment payment_id bot w s in
  notifier_calls (emitted run) <> [] ->
  exists url body r target rest text markup,
    In (EvHttpPost url body) (emitted run) /\
    http_post_json w url body = Returns (VDict r) /\
    dict_get r "Status" = Some (VStr "CONFIRMED") /\
    db_fetch_pay_notify w = Returns (Some (target :: rest)) /\
    py_ne_zero target = true /\
    bot <> None /\
    notifier_calls (emitted run) = [EvSendMessage target text "HTML" markup].
Proof.
  intros run Hcalls.
  destruct (check_payment_summary payment_id bot w s)
    as [(_ & _ & msg & Hrun) | (_ & _ & _ & Hreq & _ & _ & Hnc)];
    fold run in Hrun || fold run in Hreq, Hnc.
  - rewrite Hrun in Hcalls. now elim Hcalls.
  - match type of Hreq with _ = [(?u, ?b)] =>
      set (url0 := u) in *; set (body0 := b) in * end.
    rewrite Hnc in Hcalls. rewrite Hnc. clear Hnc.
    unfold notification_of, expected_call in *.
    destruct (confirmed_response (http_post_json w url0 body0)) as [r|] eqn:Hc;
      [|now elim Hcalls].
    apply confirmed_response_Some in Hc as [Hresp Hst].
    destruct (db_fetch_pay_notify w) as [[[|target rest]|]|e];
      try (now elim Hcalls).
    destruct (py_ne_zero target) eqn:Hne; [|now elim Hcalls].
    destruct (meta_readable r); [|now elim Hcalls]. cbn [andb] in *.
    destruct bot as [send|]; [|now elim Hcalls].
    destruct (get_admin_keyboard w) as [kb|e]; [|now elim Hcalls].
    eexists url0, body0, r, target, rest, _, kb.
    split; [apply In_http_requests; rewrite Hreq; now left|].
    repeat (split; [first [assumption|reflexivity|discriminate]|]).
    reflexivity.
Qed.

(** X21.  The notification target is read only for a confirmed payment:
    [check_payment] queries [pay_notify] once when its request was
    answered with a mapping whose [Status] is [CONFIRMED], and not at all
    otherwise. *)
Theorem check_payment_reads_target_when_confirmed (payment_id : pyval)
    (bot : option notifier) (w : world) (s : state) :
  let run := check_payment payment_id bot w s in
  (notify_reads (emitted run) = [EvFetchNotify] <->
   exists url body r,
     In (EvHttpPost url body) (emitted run) /\
     http_post_json w url body = Returns (VDict r) /\
     dict_get r "Status" = Some (VStr "CONFIRMED")) /\
  (notify_reads (emitted run) = [EvFetchNotify] \/ notify_reads (emitted run) = []).
Proof.
  intros run.
  destruct (check_payment_summary payment_id bot w s)
    as [(_ & _ & msg & Hrun) | (_ & _ & _ & Hreq & _ & Hnr & _)];
    fold run in Hrun || fold run in Hreq, Hnr.
  - rewrite Hrun. cbn [emitted notify_reads List.filter].
    split; [|now right]. split; [discriminate|].
    intros (url & body & r & Hin & _). cbn in Hin.
    destruct Hin as [H|[H|[H|[]]]]; discriminate.
  - rewrite Hnr. unfold target_reads.
    match type of Hreq with _ = [(?u, ?b)] => set (url0 := u) in *; set (body0 := b) in * end.
    destruct (confirmed_response (http_post_json w url0 body0)) as [r|] eqn:Hc.
    + split; [|now left]. split; [intros _|reflexivity].
      apply confirmed_response_Some in Hc as [Hresp Hst].
      exists url0, body0, r. split; [|now split].
      apply In_http_requests. rewrite Hreq. now left.
    + split; [|now right]. split; [discriminate|].
      intros (url & body & r & Hin & Hresp & Hst).
      apply In_http_requests in Hin. rewrite Hreq in Hin.
      destruct Hin as [[= <- <-]|[]].
      assert (Hsome : confirmed_response (http_post_json w url0 body0) = Some r)
        by (now apply confirmed_response_Some).
      congruence.
Qed.

(** X22.  When the client is not initialized and [init_tbank] fails,
    [check_payment] reaches its [False] through the handler: [_post]
    returns [None], reading [Status] from it raises [AttributeError], and
    the handler records that error.  The events of the call are the read
    of the settings, the error record of [init_tbank], and this record. *)
Theorem check_payment_unconfigured_is_caught (payment_id : pyval)
    (bot : option notifier) (w : world) (s : state) :
  is_initialized (self s) = false ->
  result (init_tbank w s) = Returns false ->
  let run := check_payment payment_id bot w s in
  result run = Returns false /\
  exists msg,
    emitted run
    = [EvGetSettings; EvLog ERROR msg;
       EvLog ERROR
         "Error checking TBank payment: 'NoneType' object has no attribute 'get'"].
Proof.
  intros Hinit Hfail run. apply init_false_credentials in Hfail.
  destruct (check_payment_summary payment_id bot w s)
    as [(_ & _ & msg & Hrun) | ([Hi|Hc] & _)]; [|congruence|contradiction].
  fold run in Hrun. rewrite Hrun. split; [reflexivity|]. now exists msg.
Qed.

(* ===================================================================== *)
(** * What the public coroutines do to the client and the store *)
(* ===================================================================== *)

Lemma posted_state_keeps (a : addr) (me : manager) (h : list dict) (P : dict)
    (a' : addr) (d : dict) :
  a = List.length h ->
  h !! a' = Some d ->
  heap (posted_state a (State me (h ++ [P])) P) !! a' = Some d.
Proof.
  intros -> Hd. pose proof (lookup_lt_Some _ _ _ Hd) as Hlt.
  unfold posted_state. cbn [heap self].
  rewrite lookup_app_l by (rewrite length_insert, length_app; lia).
  rewrite list_lookup_insert_ne by lia.
  rewrite lookup_app_l by exact Hlt. exact Hd.
Qed.

(** X23.  No retries and no second notification: [create_payment] sends
    at most one request and never reads the notification target or calls
    the notifier; [check_payment] sends at most one request, reads the
    notification target at most once and calls the notifier at most
    once. *)
Theorem public_calls_act_at_most_once :
  (forall amount description user_email user_id tariff_name username w s,
     let run := create_payment amount description user_email user_id tariff_name
                               username w s in
     (List.length (http_requests (emitted run)) <= 1)%nat /\
     notify_reads (emitted run) = [] /\
     notifier_calls (emitted run) = [])
  /\
  (forall payment_id bot w s,
     let run := check_payment payment_id bot w s in
     (List.length (http_requests (emitted run)) <= 1)%nat /\
     (List.length (notify_reads (emitted run)) <= 1)%nat /\
     (List.length (notifier_calls (emitted run)) <= 1)%nat).
Proof.
  split.
  - intros amount description user_email user_id tariff_name username w s run.
    pose proof (create_payment_summary amount description user_email user_id
                  tariff_name username w s) as H.
    cbv zeta in H. fold run in H.
    destruct (float_trunc (float_mul amount (float_of_int 100))) as [z|].
    + destruct H as [(_ & _ & msg & ->) | (_ & _ & _ & -> & _ & -> & ->)];
        cbn; repeat split; lia.
    + destruct H as [msg ->]. cbn. repeat split; lia.
  - intros payment_id bot w s run.
    destruct (check_payment_summary payment_id bot w s)
      as [(_ & _ & msg & Hrun) | (_ & _ & _ & Hreq & _ & Hnr & Hnc)];
      fold run in Hrun || fold run in Hreq, Hnr, Hnc.
    + rewrite Hrun. cbn. repeat split; lia.
    + rewrite Hreq, Hnr, Hnc. split; [cbn; lia|]. split.
      * unfold target_reads. destruct (confirmed_response _); cbn; lia.
      * apply notification_of_length.
Qed.

(** X24.  The client after a public call.  [check_payment], and
    [create_payment] when the amount has an integer value, leave an
    initialized client with the credentials it had; an uninitialized
    client is left initialized with the credentials of the settings row
    when the row holds them, and uninitialized when it does not.  A
    [create_payment] stopped by its amount leaves the client as it was.
    In every case all dictionaries that existed before the call are
    unchanged: the calls only add dictionaries to the store. *)
Theorem public_calls_final_state :
  (forall amount description user_email user_id tariff_name username w s,
     let run := create_payment amount description user_email user_id tariff_name
                               username w s in
     self (final run)
     = match float_trunc (float_mul amount (float_of_int 100)) with
       | Some _ => client_after w (self s)
       | None => self s
       end /\
     (forall a d, heap s !! a = Some d -> heap (final run) !! a = Some d))
  /\
  (forall payment_id bot w s,
     let run := check_payment payment_id bot w s in
     self (final run) = client_after w (self s) /\
     (forall a d, heap s !! a = Some d -> heap (final run) !! a = Some d)).
Proof.
  split.
  - intros amount description user_email user_id tariff_name username w s run.
    pose proof (create_payment_summary amount description user_email user_id
                  tariff_name username w s) as H.
    cbv zeta in H. fold run in H.
    destruct (float_trunc (float_mul amount (float_of_int 100))) as [z|].
    + destruct H as [(Hi & Hc & msg & ->) | (_ & _ & -> & _)]; cbn [final self heap].
      * split; [unfold client_after; now rewrite Hi, Hc|].
        intros a d Hd. now apply lookup_app_l_Some.
      * split; [reflexivity|]. intros a d Hd. now apply posted_state_keeps.
    + destruct H as [msg ->]. cbn [final]. now split.
  - intros payment_id bot w s run.
    destruct (check_payment_summary payment_id bot w s)
      as [(Hi & Hc & msg & Hrun) | (_ & _ & Hfin & _)];
      fold run in Hrun || fold run in Hfin.
    + rewrite Hrun. cbn [final self heap].
      split; [unfold client_after; now rewrite Hi, Hc|].
      intros a d Hd. now apply lookup_app_l_Some.
    + rewrite Hfin. split; [reflexivity|].
      intros a d Hd. now apply posted_state_keeps.
Qed.

(** X25.  The settings store is consulted lazily.  A public call on an
    initialized client never reads the settings; on a client that is not
    initialized it reads them exactly once, provided the call gets as far
    as [_post] ([check_payment] always does, [create_payment] does when the
    amount has an integer value). *)
Theorem public_calls_read_settings_lazily :
  (forall amount description user_email user_id tariff_name username w s,
     settings_reads
       (emitted (create_payment amount description user_email user_id tariff_name
                                username w s))
     = match float_trunc (float_mul amount (float_of_int 100)) with
       | Some _ => if is_initialized (self s) then [] else [EvGetSettings]
       | None => []
       end)
  /\
  (forall payment_id bot w s,
     settings_reads (emitted (check_payment payment_id bot w s))
     = if is_initialized (self s) then [] else [EvGetSettings]).
Proof.
  split.
  - intros amount description user_email user_id tariff_name username w s.
    pose proof (create_payment_summary amount description user_email user_id
                  tariff_name username w s) as H.
    cbv zeta in H.
    destruct (float_trunc (float_mul amount (float_of_int 100))) as [z|].
    + destruct H as [(Hi & Hc & msg & ->) | (_ & _ & _ & _ & -> & _)];
        [now rewrite Hi|reflexivity].
    + destruct H as [msg ->]. reflexivity.
  - intros payment_id bot w s.
    destruct (check_payment_summary payment_id bot w s)
      as [(Hi & Hc & msg & ->) | (_ & _ & _ & _ & -> & _)];
      [now rewrite Hi|reflexivity].
Qed.

(** X28.  Credentials are loaded once.  The first [check_payment] of a
    newly constructed client ([__init__]) whose settings row holds a true
    terminal key and a true password reads the settings once and leaves the
    client initialized with them.  A second call on that client reads no
    settings, whatever the store holds or does by then, and sends its
    request to [https://ecom.tinkoff.ru/api/v2/GetState] with the terminal
    key and the password cached by the first. *)
Theorem credentials_loaded_once (payment_id payment_id' : pyval)
    (bot bot' : option notifier) (w w' : world) (h : list dict) (r : row)
    (tk pw : pyval) :
  db_get_tbank_settings w = Returns (Some r) ->
  r !! 2%nat = Some tk ->
  r !! 3%nat = Some pw ->
  truthy tk = true ->
  truthy pw = true ->
  let first := check_payment payment_id bot w (State __init__ h) in
  let second := check_payment payment_id' bot' w' (final first) in
  settings_reads (emitted first) = [EvGetSettings] /\
  self (final first) = Manager true "https://ecom.tinkoff.ru/api/v2/" tk pw /\
  settings_reads (emitted second) = [] /\
  http_requests (emitted second)
  = [("https://ecom.tinkoff.ru/api/v2/GetState",
      [ ("PaymentId", payment_id');
        ("TerminalKey", tk);
        ("Token", VStr (Sha256.hexdigest
                          (py_str pw +++ py_str payment_id' +++ py_str tk))) ])].
Proof.
  intros Hdb H2 H3 T2 T3 first second.
  assert (Hc : credentials (db_get_tbank_settings w) = Some (tk, pw))
    by (apply credentials_Some; now exists r).
  assert (Hme : client_after w __init__
                = Manager true "https://ecom.tinkoff.ru/api/v2/" tk pw)
    by (unfold client_after; cbn [is_initialized __init__]; now rewrite Hc).
  destruct (check_payment_summary payment_id bot w (State __init__ h))
    as [(_ & Hnone & _) | (_ & _ & Hfin & _ & Hs & _)]; [congruence|].
  fold first in Hfin, Hs. cbn [self heap] in Hfin, Hs. rewrite Hme in Hfin.
  assert (Hself : self (final first)
                  = Manager true "https://ecom.tinkoff.ru/api/v2/" tk pw)
    by (now rewrite Hfin).
  split; [exact Hs|]. split; [exact Hself|].
  destruct (check_payment_summary payment_id' bot' w' (final first))
    as [(Hi & _) | (_ & _ & _ & Hreq & Hs' & _)];
    [rewrite Hself in Hi; discriminate|].
  fold second in Hreq, Hs'. rewrite Hself in Hreq, Hs'.
  split; [exact Hs'|]. rewrite Hreq. reflexivity.
Qed.

End Builtins.

(** The one request of a sample run. *)
Ltac sample_request E :=
  match goal with
  | |- context [emitted ?run] =>
      assert (E : exists url body, http_requests (emitted run) = [(url, body)])
        by (vm_compute; eexists _, _; reflexivity)
  | |- context [result ?run] =>
      assert (E : exists url body, http_requests (emitted run) = [(url, body)])
        by (vm_compute; eexists _, _; reflexivity)
  end.

(* ===================================================================== *)
(** * The digest and the amount on concrete inputs *)
(* ===================================================================== *)

Example sha256_abc :
  Sha256.hexdigest "abc"
  = "ba7816bf8f01cfea414140de5dae2223b00361a396177a9cb410ff61f20015ad".
Proof. vm_compute. reflexivity. Qed.

Example sha256_empty :
  Sha256.hexdigest ""
  = "e3b0c44298fc1c149afbf4c8996fb92427ae41e4649b934ca495991b7852b855".
Proof. vm_compute. reflexivity. Qed.

Example sha256_two_blocks :
  Sha256.hexdigest
    "aaaaaaaaaaaaaaaaaaaaaaaaaaaaaaaaaaaaaaaaaaaaaaaaaaaaaaaaaaaaaaaaaaaaaa"
  = "6bd5e5034855a11241f0dee8fc72850ffd9955b28347a86428b5fa19119f6ad0".
Proof. vm_compute. reflexivity. Qed.

(** [int] truncates toward zero: the magnitude is shifted, the sign kept. *)
Lemma float_trunc_shift_left (sg : bool) (m : positive) (e : Z) :
  0 <= e ->
  float_trunc (S754_finite sg m e) = Some (cond_Zopp sg (Z.pos m * 2 ^ e)).
Proof.
  intros He. unfold float_trunc. now rewrite Z.shiftl_mul_pow2.
Qed.

Lemma float_trunc_toward_zero (sg : bool) (m : positive) (e : Z) :
  e < 0 ->
  float_trunc (S754_finite sg m e)
  = Some (Z.quot (cond_Zopp sg (Z.pos m)) (2 ^ (- e))).
Proof.
  intros He. unfold float_trunc. f_equal.
  rewrite Z.shiftl_div_pow2 by lia.
  assert (Hpow : 0 < 2 ^ (- e)) by (apply Z.pow_pos_nonneg; lia).
  destruct sg; cbn [cond_Zopp].
  - rewrite Z.quot_opp_l by lia. f_equal.
    symmetry. apply Z.quot_div_nonneg; lia.
  - symmetry. apply Z.quot_div_nonneg; lia.
Qed.

(** The sample floats are the binary64 values of the literals [10.0] and
    [19.99]: the integer [10], and the quotient [1999 / 100] rounded to
    nearest. *)
Example float_10_is_ten : float_of_int 10 = float_10.
Proof. vm_compute. reflexivity. Qed.

Example float_19_99_is_nearest :
  SFdiv prec emax (float_of_int 1999) (float_of_int 100) = float_19_99.
Proof. vm_compute. reflexivity. Qed.

Example amount_10_is_1000 :
  float_trunc (float_mul float_10 (float_of_int 100)) = Some 1000.
Proof. vm_compute. reflexivity. Qed.

(** The product is rounded before it is truncated: [19.99 * 100] is the
    float just below [1999]. *)
Example amount_19_99_is_1998 :
  float_trunc (float_mul float_19_99 (float_of_int 100)) = Some 1998.
Proof. vm_compute. reflexivity. Qed.

(* ===================================================================== *)
(** * The properties on the sample values *)
(* ===================================================================== *)

Lemma payload_a_wf : dict_wf payload_a.
Proof.
  unfold dict_wf, payload_a, keys. simpl.
  constructor; [|constructor; [|constructor]].
  - intros H. apply list_elem_of_singleton in H. discriminate H.
  - intros H. inversion H.
Defined.


(** The token of the sample payload, as [hashlib] gives it for
    [o1] + [PW] + [pid1] + [TK]. *)
Example sample_token :
  signature sample_repr_str sample_repr_float ready payload_a
  = Sha256.hexdigest "o1PWpid1TK".
Proof. vm_compute. reflexivity. Qed.

Lemma post_password_hashed_not_sent_witness :
  exists body hashed pre post,
    http_requests
      (emitted (_post sample_repr_str sample_repr_float "GetState" 0%nat
                      world_accepted (State ready [payload_a])))
      = [(base_url ready +++ "GetState", body)] /\
    dict_get body "Token" = Some (VStr (Sha256.hexdigest hashed)) /\
    hashed = token_str sample_repr_str sample_repr_float
               (sorted (signed_copy ready payload_a)) /\
    In ("Password", password ready) (sorted (signed_copy ready payload_a)) /\
    hashed = pre +++ py_str sample_repr_str sample_repr_float (password ready)
                 +++ post /\
    (forall k, k <> "TerminalKey" -> k <> "Token" ->
               dict_get body k = dict_get payload_a k) /\
    (dict_get payload_a "Password" = None -> dict_get body "Password" = None).
Proof.
  apply (post_password_hashed_not_sent sample_repr_str sample_repr_float
           "GetState" 0%nat world_accepted (State ready [payload_a]) payload_a).
  - reflexivity.
  - reflexivity.
Defined.

Lemma post_mutates_callers_dict_witness :
  exists P',
    heap (final (_post sample_repr_str sample_repr_float "GetState" 0%nat
                       world_network_down (State ready [payload_a]))) !! 0%nat
      = Some P' /\
    dict_get P' "TerminalKey" = Some (terminal_key ready) /\
    dict_get P' "Token"
      = Some (VStr (signature sample_repr_str sample_repr_float ready payload_a)) /\
    dict_get P' "Password" = dict_get payload_a "Password" /\
    (forall k, k <> "TerminalKey" -> k <> "Token" ->
               dict_get P' k = dict_get payload_a k).
Proof.
  apply (post_mutates_callers_dict sample_repr_str sample_repr_float
           "GetState" 0%nat world_network_down (State ready [payload_a]) payload_a).
  - reflexivity.
  - reflexivity.
Defined.

(** Scenario: the processor accepts the [Init] request. *)
Lemma create_payment_returns_ids_witness :
  result (create_payment sample_repr_str sample_repr_float float_10 "X"
                         VNone VNone VNone VNone world_accepted fresh_state)
  = Returns (VStr "pid1", VStr "https://pay/x").
Proof.
  sample_request E. destruct E as (url & body & E).
  refine (proj1 (create_payment_returns_ids sample_repr_str sample_repr_float
                   float_10 "X" VNone VNone VNone VNone world_accepted fresh_state)
                url body
                [("Success", VBool true); ("PaymentId", VStr "pid1");
                 ("PaymentURL", VStr "https://pay/x")] _ _).
  - apply In_http_requests. rewrite E. left. reflexivity.
  - reflexivity.
Defined.

(** Scenario: the processor refuses the [Init] request. *)
Example create_payment_refused :
  result (create_payment sample_repr_str sample_repr_float float_10 "X"
                         VNone VNone VNone VNone world_refused fresh_state)
  = Returns (VNone, VNone).
Proof. vm_compute. reflexivity. Qed.

Lemma create_payment_amount_minor_units_witness :
  exists url body,
    In (EvHttpPost url body)
       (emitted (create_payment sample_repr_str sample_repr_float float_10 "X"
                                VNone VNone VNone VNone world_accepted fresh_state)) /\
    dict_get body "Amount" = Some (VInt 1000).
Proof.
  sample_request E. destruct E as (url & body & E).
  assert (Hin : In (EvHttpPost url body)
                   (emitted (create_payment sample_repr_str sample_repr_float
                               float_10 "X" VNone VNone VNone VNone
                               world_accepted fresh_state)))
    by (apply In_http_requests; rewrite E; left; reflexivity).
  exists url, body. split; [exact Hin|].
  destruct (create_payment_amount_minor_units sample_repr_str sample_repr_float
              float_10 "X" VNone VNone VNone VNone world_accepted fresh_state
              url body Hin) as (minor & Hminor & Hamount).
  rewrite amount_10_is_1000 in Hminor. injection Hminor as <-. exact Hamount.
Defined.

(** The processor reports [CONFIRMED], reading the notification target
    raises, and [check_payment] returns [False]. *)
Lemma check_payment_confirmed_store_down :
  exists url body,
    In (EvHttpPost url body)
       (emitted (check_payment sample_repr_str sample_repr_float (VStr "pid1") None
                               world_confirmed_store_down ready_state)) /\
    http_post_json world_confirmed_store_down url body
      = Returns (VDict [("Success", VBool true); ("Status", VStr "CONFIRMED")]) /\
    result (check_payment sample_repr_str sample_repr_float (VStr "pid1") None
                          world_confirmed_store_down ready_state)
      = Returns false.
Proof.
  sample_request E. destruct E as (url & body & E).
  exists url, body. split; [|split].
  - apply In_http_requests. rewrite E. left. reflexivity.
  - reflexivity.
  - vm_compute. reflexivity.
Qed.


(** A failure of the notifier is handled inside the suite: one call is
    made, the suite does not raise, and the result stays [True]. *)
Example notifier_failure_keeps_true :
  let run := check_payment sample_repr_str sample_repr_float (VStr "pid1")
                           (Some failing_notifier) world_confirmed_target
                           ready_state in
  result run = Returns true /\ List.length (notifier_calls (emitted run)) = 1%nat.
Proof. vm_compute. split; reflexivity. Qed.

Lemma init_failure_sends_nothing_witness :
  (forall amount description user_email user_id tariff_name username,
     let run := create_payment sample_repr_str sample_repr_float amount description
                               user_email user_id tariff_name username
                               world_no_settings fresh_state in
     result run = Returns (VNone, VNone) /\ http_requests (emitted run) = [])
  /\
  (forall payment_id bot,
     let run := check_payment sample_repr_str sample_repr_float payment_id bot
                              world_no_settings fresh_state in
     result run = Returns false /\ http_requests (emitted run) = []).
Proof.
  apply (init_failure_sends_nothing sample_repr_str sample_repr_float
           world_no_settings fresh_state).
  - reflexivity.
  - vm_compute. reflexivity.
Defined.

Lemma confirmed_without_target_skips_notifier_witness :
  result (check_payment sample_repr_str sample_repr_float (VStr "pid1")
                        (Some failing_notifier) world_confirmed_no_target
                        ready_state)
    = Returns true /\
  notifier_calls
    (emitted (check_payment sample_repr_str sample_repr_float (VStr "pid1")
                            (Some failing_notifier) world_confirmed_no_target
                            ready_state))
    = [].
Proof.
  sample_request E. destruct E as (url & body & E).
  refine (confirmed_without_target_skips_notifier sample_repr_str sample_repr_float
            (VStr "pid1") (Some failing_notifier) world_confirmed_no_target
            ready_state url body
            [("Success", VBool true); ("Status", VStr "CONFIRMED")] _ _ _ _).
  - apply In_http_requests. rewrite E. left. reflexivity.
  - reflexivity.
  - reflexivity.
  - right. exists []. reflexivity.
Defined.

(** C7, where the code departs from it.  The processor reports
    [CONFIRMED] and the row of [pay_notify] holds [NULL], so that no target
    is configured.  The test of line 117, [None != 0], is true:
    [check_payment] returns [True] and calls the notifier once, with [None]
    as the chat. *)
Theorem confirmed_null_target_calls_notifier :
  let run := check_payment sample_repr_str sample_repr_float (VStr "pid1")
                           (Some accepting_notifier) world_confirmed_null_target
                           ready_state in
  (exists url body,
     In (EvHttpPost url body) (emitted run) /\
     http_post_json world_confirmed_null_target url body
       = Returns (VDict [("Success", VBool true); ("Status", VStr "CONFIRMED")])) /\
  db_fetch_pay_notify world_confirmed_null_target = Returns (Some [VNone]) /\
  result run = Returns true /\
  notifier_calls (emitted run)
  = [EvSendMessage VNone
       (message_text sample_repr_str sample_repr_float VNone (VStr "N/A")
                     "2024-01-01 00:00:00")
       "HTML" VNone].
Proof.
  intros run. subst run.
  sample_request E. destruct E as (url & body & E).
  split; [|split; [|split]].
  - exists url, body. split; [|reflexivity].
    apply In_http_requests. rewrite E. left. reflexivity.
  - reflexivity.
  - vm_compute. reflexivity.
  - vm_compute. reflexivity.
Qed.

(** A client that was initialized stays initialized when a later
    [init_tbank] finds no settings. *)
Lemma init_failure_after_success :
  result (init_tbank sample_repr_str sample_repr_float world_no_settings ready_state)
    = Returns false /\
  is_initialized
    (self (final (init_tbank sample_repr_str sample_repr_float world_no_settings
                             ready_state)))
    = true.
Proof. vm_compute. split; reflexivity. Qed.

Lemma init_unconfigured_keeps_state_witness :
  result (init_tbank sample_repr_str sample_repr_float world_no_settings fresh_state)
    = Returns false /\
  final (init_tbank sample_repr_str sample_repr_float world_no_settings fresh_state)
    = fresh_state /\
  (is_initialized (self fresh_state) = false ->
   is_initialized
     (self (final (init_tbank sample_repr_str sample_repr_float world_no_settings
                              fresh_state)))
     = false).
Proof.
  apply (init_unconfigured_keeps_state sample_repr_str sample_repr_float
           world_no_settings fresh_state).
  left. reflexivity.
Defined.

(* ===================================================================== *)
(** * The further properties on the sample values *)
(* ===================================================================== *)

(** A client holding old credentials takes those of the row. *)
Lemma init_tbank_caches_row_columns_witness :
  result (init_tbank sample_repr_str sample_repr_float world_accepted stale_state)
    = Returns true /\
  final (init_tbank sample_repr_str sample_repr_float world_accepted stale_state)
    = State (Manager true (base_url (self stale_state)) (VStr "TK") (VStr "PW"))
            (heap stale_state).
Proof.
  apply (init_tbank_caches_row_columns sample_repr_str sample_repr_float
           world_accepted stale_state settings_row (VStr "TK") (VStr "PW"));
    reflexivity.
Defined.

Lemma post_unconfigured_leaves_payload_witness :
  result (_post sample_repr_str sample_repr_float "Init" 0%nat world_no_settings
                (State __init__ [payload_a]))
    = Returns VNone /\
  final (_post sample_repr_str sample_repr_float "Init" 0%nat world_no_settings
               (State __init__ [payload_a]))
    = State __init__ [payload_a] /\
  http_requests
    (emitted (_post sample_repr_str sample_repr_float "Init" 0%nat world_no_settings
                    (State __init__ [payload_a])))
    = [].
Proof.
  apply (post_unconfigured_leaves_payload sample_repr_str sample_repr_float
           "Init" 0%nat world_no_settings (State __init__ [payload_a])).
  - reflexivity.
  - vm_compute. reflexivity.
Defined.

Lemma post_initializes_lazily_witness :
  self (final (_post sample_repr_str sample_repr_float "GetState" 0%nat
                     world_accepted (State __init__ [payload_a])))
    = ready /\
  settings_reads
    (emitted (_post sample_repr_str sample_repr_float "GetState" 0%nat
                    world_accepted (State __init__ [payload_a])))
    = [EvGetSettings] /\
  http_requests
    (emitted (_post sample_repr_str sample_repr_float "GetState" 0%nat
                    world_accepted (State __init__ [payload_a])))
    = [(base_url __init__ +++ "GetState",
        dict_set (dict_set payload_a "TerminalKey" (VStr "TK")) "Token"
          (VStr (Sha256.hexdigest
                   (token_str sample_repr_str sample_repr_float
                      (sorted (dict_set (dict_set payload_a "TerminalKey" (VStr "TK"))
                                        "Password" (VStr "PW")))))))].
Proof.
  apply (post_initializes_lazily sample_repr_str sample_repr_float "GetState" 0%nat
           world_accepted (State __init__ [payload_a]) settings_row
           (VStr "TK") (VStr "PW") payload_a);
    reflexivity.
Defined.

(** The store holds [TK] and [PW]; the client keeps [OLD] and [OLDPW]. *)
Lemma post_initialized_skips_store_witness :
  settings_reads
    (emitted (_post sample_repr_str sample_repr_float "GetState" 0%nat
                    world_accepted stale_state))
    = [] /\
  self (final (_post sample_repr_str sample_repr_float "GetState" 0%nat
                     world_accepted stale_state))
    = stale.
Proof.
  apply (post_initialized_skips_store sample_repr_str sample_repr_float "GetState"
           0%nat world_accepted stale_state payload_a);
    reflexivity.
Defined.

Lemma post_propagates_errors_witness :
  result (_post sample_repr_str sample_repr_float "GetState" 0%nat
                world_network_down (State ready [payload_a]))
    = Raises (Exn "ClientConnectorError" "cannot connect to host") /\
  result (_post sample_repr_str sample_repr_float "GetState" 0%nat
                world_array_answer (State ready [payload_a]))
    = Raises (Exn "AttributeError" "'list' object has no attribute 'get'").
Proof.
  split.
  - refine (proj1 (post_propagates_errors sample_repr_str sample_repr_float
                     "GetState" 0%nat world_network_down (State ready [payload_a])
                     payload_a _ _) _ _); reflexivity.
  - refine (proj2 (post_propagates_errors sample_repr_str sample_repr_float
                     "GetState" 0%nat world_array_answer (State ready [payload_a])
                     payload_a _ _) (VList []) _ _); try reflexivity.
    intros r. discriminate.
Defined.

Lemma post_returns_refusal_witness :
  result (_post sample_repr_str sample_repr_float "Init" 0%nat world_refused
                (State ready [payload_a]))
    = Returns init_refused /\
  emitted (_post sample_repr_str sample_repr_float "Init" 0%nat world_refused
                 (State ready [payload_a]))
    = [EvHttpPost (base_url ready +++ "Init")
                  (request_body sample_repr_str sample_repr_float ready payload_a);
       EvLog ERROR ("TBank API error at " +++ "Init" +++ ": "
                    +++ py_str sample_repr_str sample_repr_float init_refused)].
Proof.
  apply (post_returns_refusal sample_repr_str sample_repr_float "Init" 0%nat
           world_refused (State ready [payload_a]) payload_a
           [("Success", VBool false)]);
    reflexivity.
Defined.

Lemma post_frame_witness :
  List.length (heap (final (_post sample_repr_str sample_repr_float "GetState" 0%nat
                                  world_network_down (State ready [payload_a]))))
    = 2%nat /\
  heap (final (_post sample_repr_str sample_repr_float "GetState" 0%nat
                     world_network_down (State ready [payload_a]))) !! 1%nat
    = Some (signed_copy ready payload_a) /\
  dict_get (signed_copy ready payload_a) "Password" = Some (VStr "PW") /\
  (forall a, a <> 0%nat -> (a < 1)%nat ->
     heap (final (_post sample_repr_str sample_repr_float "GetState" 0%nat
                        world_network_down (State ready [payload_a]))) !! a
     = [payload_a] !! a).
Proof.
  apply (post_frame sample_repr_str sample_repr_float "GetState" 0%nat
           world_network_down (State ready [payload_a]) payload_a);
    reflexivity.
Defined.

Lemma post_reused_payload_signs_old_token_witness :
  exists body hashed pre post,
    http_requests
      (emitted (_post sample_repr_str sample_repr_float "GetState" 0%nat
                  world_accepted
                  (final (_post sample_repr_str sample_repr_float "GetState" 0%nat
                                world_accepted (State ready [payload_a])))))
      = [(base_url ready +++ "GetState", body)] /\
    dict_get body "Token" = Some (VStr (Sha256.hexdigest hashed)) /\
    hashed = pre +++ signature sample_repr_str sample_repr_float ready payload_a
                 +++ post.
Proof.
  apply (post_reused_payload_signs_old_token sample_repr_str sample_repr_float
           "GetState" 0%nat world_accepted world_accepted (State ready [payload_a])
           payload_a);
    reflexivity.
Defined.

Lemma token_ignores_callers_password_witness :
  exists body1 body2 token,
    http_requests
      (emitted (_post sample_repr_str sample_repr_float "GetState" 0%nat
                      world_accepted (State ready [payload_a])))
      = [(base_url ready +++ "GetState", body1)] /\
    http_requests
      (emitted (_post sample_repr_str sample_repr_float "GetState" 0%nat
                      world_accepted
                      (State ready [dict_set payload_a "Password" (VStr "mine")])))
      = [(base_url ready +++ "GetState", body2)] /\
    dict_get body1 "Token" = Some (VStr token) /\
    dict_get body2 "Token" = Some (VStr token) /\
    dict_get body2 "Password" = Some (VStr "mine").
Proof.
  apply (token_ignores_callers_password sample_repr_str sample_repr_float
           "GetState" world_accepted ready [payload_a]
           [dict_set payload_a "Password" (VStr "mine")] 0%nat 0%nat payload_a
           (VStr "mine")).
  - reflexivity.
  - exact payload_a_wf.
  - reflexivity.
  - reflexivity.
Defined.

Lemma post_overwrites_callers_terminal_key_witness :
  exists body,
    http_requests
      (emitted (_post sample_repr_str sample_repr_float "GetState" 0%nat
                      world_accepted
                      (State ready [dict_set payload_a "TerminalKey" (VStr "A")])))
      = [(base_url ready +++ "GetState", body)] /\
    http_requests
      (emitted (_post sample_repr_str sample_repr_float "GetState" 0%nat
                      world_accepted
                      (State ready [dict_set payload_a "TerminalKey" (VStr "B")])))
      = [(base_url ready +++ "GetState", body)] /\
    dict_get body "TerminalKey" = Some (VStr "TK").
Proof.
  apply (post_overwrites_callers_terminal_key sample_repr_str sample_repr_float
           "GetState" world_accepted ready
           [dict_set payload_a "TerminalKey" (VStr "A")]
           [dict_set payload_a "TerminalKey" (VStr "B")] 0%nat 0%nat payload_a
           (VStr "A") (VStr "B"));
    reflexivity.
Defined.

(** The amount as an integer and as a string. *)
Lemma token_depends_on_value_strings_witness :
  exists body1 body2 token,
    http_requests
      (emitted (_post sample_repr_str sample_repr_float "Init" 0%nat world_accepted
                      (State ready [[("Amount", VInt 1000)]])))
      = [(base_url ready +++ "Init", body1)] /\
    http_requests
      (emitted (_post sample_repr_str sample_repr_float "Init" 0%nat world_accepted
                      (State ready [[("Amount", VStr "1000")]])))
      = [(base_url ready +++ "Init", body2)] /\
    dict_get body1 "Token" = Some (VStr token) /\
    dict_get body2 "Token" = Some (VStr token).
Proof.
  apply (token_depends_on_value_strings sample_repr_str sample_repr_float "Init"
           world_accepted ready [[("Amount", VInt 1000)]] [[("Amount", VStr "1000")]]
           0%nat 0%nat [("Amount", VInt 1000)] [("Amount", VStr "1000")]).
  - reflexivity.
  - reflexivity.
  - reflexivity.
  - constructor; [|constructor]. split; [reflexivity|]. vm_compute. reflexivity.
Defined.

Lemma token_has_no_separators_witness :
  exists body1 body2 token,
    http_requests
      (emitted (_post sample_repr_str sample_repr_float "Init" 0%nat world_accepted
                      (State ready [[("Description", VStr ("VPN " +++ "30"));
                                     ("OrderId", VStr "7")]])))
      = [(base_url ready +++ "Init", body1)] /\
    http_requests
      (emitted (_post sample_repr_str sample_repr_float "Init" 0%nat world_accepted
                      (State ready [[("Description", VStr "VPN ");
                                     ("OrderId", VStr ("30" +++ "7"))]])))
      = [(base_url ready +++ "Init", body2)] /\
    dict_get body1 "Token" = Some (VStr token) /\
    dict_get body2 "Token" = Some (VStr token) /\
    token = Sha256.hexdigest
              ("VPN " +++ "30" +++ "7" +++
               py_str sample_repr_str sample_repr_float (password ready) +++
               py_str sample_repr_str sample_repr_float (terminal_key ready)).
Proof.
  apply (token_has_no_separators sample_repr_str sample_repr_float "Init"
           world_accepted ready
           [[("Description", VStr ("VPN " +++ "30")); ("OrderId", VStr "7")]]
           [[("Description", VStr "VPN "); ("OrderId", VStr ("30" +++ "7"))]]
           0%nat 0%nat "VPN " "30" "7");
    reflexivity.
Defined.

(** The call [create_payment(10.0, "X")] of a fresh client: no user, so the
    customer key is the string [None]. *)
Lemma create_payment_request_body_witness :
  exists token,
    http_requests
      (emitted (create_payment sample_repr_str sample_repr_float float_10 "X"
                               VNone VNone VNone VNone world_accepted fresh_state))
    = [("https://ecom.tinkoff.ru/api/v2/Init",
        [ ("OrderId", VStr "0f8fad5b-d9cb-469f-a165-70867728950e");
          ("Amount", VInt 1000);
          ("Description", VStr "X");
          ("CustomerKey", VStr "None");
          ("DATA", VDict [ ("telegram_id", VNone);
                           ("username", VStr "unknown");
                           ("tariff_name", VStr "none") ]);
          ("SuccessURL", VStr "https://t.me/BURYAT_VPN_BOT");
          ("FailURL", VStr "https://t.me/BURYAT_VPN_BOT");
          ("NotificationURL", VStr "https://your-server.com/tbank/callback");
          ("TerminalKey", VStr "TK");
          ("Token", VStr token) ])].
Proof.
  eexists.
  refine (eq_trans
            (create_payment_request_body sample_repr_str sample_repr_float float_10
               "X" VNone VNone VNone VNone world_accepted fresh_state 1000 _ _) _).
  - vm_compute. reflexivity.
  - right. vm_compute. discriminate.
  - reflexivity.
Defined.

(** [2 ** 1023] is a float, its hundredfold is not. *)
Lemma create_payment_nonfinite_amount_witness :
  result (create_payment sample_repr_str sample_repr_float float_huge "X"
                         VNone VNone VNone VNone world_accepted fresh_state)
    = Returns (VNone, VNone) /\
  final (create_payment sample_repr_str sample_repr_float float_huge "X"
                        VNone VNone VNone VNone world_accepted fresh_state)
    = fresh_state /\
  (exists msg,
     emitted (create_payment sample_repr_str sample_repr_float float_huge "X"
                             VNone VNone VNone VNone world_accepted fresh_state)
     = [EvLog ERROR msg]) /\
  http_requests
    (emitted (create_payment sample_repr_str sample_repr_float float_huge "X"
                             VNone VNone VNone VNone world_accepted fresh_state))
    = [] /\
  settings_reads
    (emitted (create_payment sample_repr_str sample_repr_float float_huge "X"
                             VNone VNone VNone VNone world_accepted fresh_state))
    = [].
Proof.
  apply (create_payment_nonfinite_amount sample_repr_str sample_repr_float
           float_huge "X" VNone VNone VNone VNone world_accepted fresh_state).
  vm_compute. reflexivity.
Defined.

Lemma create_payment_partial_pair_witness :
  result (create_payment sample_repr_str sample_repr_float float_10 "X"
                         VNone VNone VNone VNone world_without_url fresh_state)
  = Returns (VStr "pid1", VNone).
Proof.
  sample_request E. destruct E as (url & body & E).
  refine (create_payment_partial_pair sample_repr_str sample_repr_float
            float_10 "X" VNone VNone VNone VNone world_without_url fresh_state
            url body [("Success", VBool true); ("PaymentId", VStr "pid1")] _ _ _ _).
  - apply In_http_requests. rewrite E. left. reflexivity.
  - reflexivity.
  - reflexivity.
  - reflexivity.
Defined.

Lemma check_payment_request_body_witness :
  http_requests
    (emitted (check_payment sample_repr_str sample_repr_float (VStr "pid1") None
                            world_confirmed_target fresh_state))
  = [("https://ecom.tinkoff.ru/api/v2/GetState",
      [ ("PaymentId", VStr "pid1");
        ("TerminalKey", VStr "TK");
        ("Token", VStr (Sha256.hexdigest "PWpid1TK")) ])].
Proof.
  refine (eq_trans
            (check_payment_request_body sample_repr_str sample_repr_float
               (VStr "pid1") None world_confirmed_target fresh_state _) _).
  - right. vm_compute. discriminate.
  - reflexivity.
Defined.

(** The notifier fails, and the payment is reported all the same. *)
Lemma check_payment_notifies_target_witness :
  result (check_payment sample_repr_str sample_repr_float (VStr "pid1")
                        (Some failing_notifier) world_confirmed_target ready_state)
    = Returns true /\
  notifier_calls
    (emitted (check_payment sample_repr_str sample_repr_float (VStr "pid1")
                            (Some failing_notifier) world_confirmed_target
                            ready_state))
    = [EvSendMessage (VInt 77)
         (message_text sample_repr_str sample_repr_float VNone (VStr "N/A")
                       "2024-01-01 00:00:00")
         "HTML" VNone].
Proof.
  sample_request E. destruct E as (url & body & E).
  refine (check_payment_notifies_target sample_repr_str sample_repr_float
            (VStr "pid1") failing_notifier world_confirmed_target ready_state
            url body [("Success", VBool true); ("Status", VStr "CONFIRMED")]
            (VInt 77) [] VNone _ _ _ _ _ _ _).
  - apply In_http_requests. rewrite E. left. reflexivity.
  - reflexivity.
  - reflexivity.
  - reflexivity.
  - reflexivity.
  - reflexivity.
  - reflexivity.
Defined.

Lemma check_payment_skips_failed_notification_witness :
  result (check_payment sample_repr_str sample_repr_float (VStr "pid1") None
                        world_confirmed_target ready_state)
    = Returns true /\
  notifier_calls
    (emitted (check_payment sample_repr_str sample_repr_float (VStr "pid1") None
                            world_confirmed_target ready_state))
    = [].
Proof.
  sample_request E. destruct E as (url & body & E).
  refine (check_payment_skips_failed_notification sample_repr_str sample_repr_float
            (VStr "pid1") None world_confirmed_target ready_state
            url body [("Success", VBool true); ("Status", VStr "CONFIRMED")]
            _ _ _ _ _).
  - apply In_http_requests. rewrite E. left. reflexivity.
  - reflexivity.
  - reflexivity.
  - reflexivity.
  - left. reflexivity.
Defined.

Lemma check_payment_unconfigured_is_caught_witness :
  result (check_payment sample_repr_str sample_repr_float (VStr "pid1") None
                        world_no_settings fresh_state)
    = Returns false /\
  exists msg,
    emitted (check_payment sample_repr_str sample_repr_float (VStr "pid1") None
                           world_no_settings fresh_state)
    = [EvGetSettings; EvLog ERROR msg;
       EvLog ERROR
         "Error checking TBank payment: 'NoneType' object has no attribute 'get'"].
Proof.
  apply (check_payment_unconfigured_is_caught sample_repr_str sample_repr_float
           (VStr "pid1") None world_no_settings fresh_state).
  - reflexivity.
  - vm_compute. reflexivity.
Defined.

Lemma token_covers_every_field_witness :
  exists body hashed pre post pre' post',
    http_requests
      (emitted (_post sample_repr_str sample_repr_float "GetState" 0%nat
                      world_accepted (State ready [payload_a])))
      = [(base_url ready +++ "GetState", body)] /\
    dict_get body "Token" = Some (VStr (Sha256.hexdigest hashed)) /\
    hashed = pre +++ py_str sample_repr_str sample_repr_float (VStr "o1") +++ post /\
    hashed = pre' +++ py_str sample_repr_str sample_repr_float (terminal_key ready)
                  +++ post'.
Proof.
  apply (token_covers_every_field sample_repr_str sample_repr_float "GetState"
           0%nat world_accepted (State ready [payload_a]) payload_a "OrderId"
           (VStr "o1"));
    first [reflexivity|discriminate].
Defined.

Lemma check_payment_notifies_only_confirmed_witness :
  exists url body r target rest text markup,
    In (EvHttpPost url body)
       (emitted (check_payment sample_repr_str sample_repr_float (VStr "pid1")
                               (Some failing_notifier) world_confirmed_target
                               ready_state)) /\
    http_post_json world_confirmed_target url body = Returns (VDict r) /\
    dict_get r "Status" = Some (VStr "CONFIRMED") /\
    db_fetch_pay_notify world_confirmed_target = Returns (Some (target :: rest)) /\
    py_ne_zero target = true /\
    Some failing_notifier <> None /\
    notifier_calls
      (emitted (check_payment sample_repr_str sample_repr_float (VStr "pid1")
                              (Some failing_notifier) world_confirmed_target
                              ready_state))
    = [EvSendMessage target text "HTML" markup].
Proof.
  apply (check_payment_notifies_only_confirmed sample_repr_str sample_repr_float
           (VStr "pid1") (Some failing_notifier) world_confirmed_target ready_state).
  vm_compute. discriminate.
Defined.

(** The store breaks down after the first call; the second call does not
    notice. *)
Lemma credentials_loaded_once_witness :
  settings_reads
    (emitted (check_payment sample_repr_str sample_repr_float (VStr "pid1") None
                            world_accepted (State __init__ [])))
    = [EvGetSettings] /\
  self (final (check_payment sample_repr_str sample_repr_float (VStr "pid1") None
                             world_accepted (State __init__ [])))
    = Manager true "https://ecom.tinkoff.ru/api/v2/" (VStr "TK") (VStr "PW") /\
  settings_reads
    (emitted (check_payment sample_repr_str sample_repr_float (VStr "pid2") None
                world_no_settings
                (final (check_payment sample_repr_str sample_repr_float
                          (VStr "pid1") None world_accepted (State __init__ [])))))
    = [] /\
  http_requests
    (emitted (check_payment sample_repr_str sample_repr_float (VStr "pid2") None
                world_no_settings
                (final (check_payment sample_repr_str sample_repr_float
                          (VStr "pid1") None world_accepted (State __init__ [])))))
  = [("https://ecom.tinkoff.ru/api/v2/GetState",
      [ ("PaymentId", VStr "pid2");
        ("TerminalKey", VStr "TK");
        ("Token", VStr (Sha256.hexdigest
                          (py_str sample_repr_str sample_repr_float (VStr "PW") +++
                           py_str sample_repr_str sample_repr_float (VStr "pid2") +++
                           py_str sample_repr_str sample_repr_float (VStr "TK")))) ])].
Proof.
  apply (credentials_loaded_once sample_repr_str sample_repr_float (VStr "pid1")
           (VStr "pid2") None None world_accepted world_no_settings []
           settings_row (VStr "TK") (VStr "PW"));
    reflexivity.
Defined.
